(** * Earthquake dashboard (streamlit_app.py): normalisation, classification,
      regional filter, colour range, summary and top-N table.

    The program is a Streamlit script over pandas.  A DataFrame is embedded as
    the list of its rows in index order (every path of the script ends in
    [reset_index(drop=True)], so the index is always the row position), a
    float64 column cell as a binary64 [float] with pandas' null being [nan],
    and the script's top-level rendering pass as a function that returns the
    widgets it emits, in order. *)

From Stdlib Require Import ZArith List Bool String Ascii Lia Floats DecimalString.
From Stdlib Require Import Sorting.Permutation Sorting.Sorted.
Import ListNotations.

(* Decimal literals denote the nearest binary64 value, as in Python. *)
Set Warnings "-inexact-float".

Local Open Scope string_scope.
Local Open Scope list_scope.
Local Open Scope float_scope.

(** ** Python values reaching the numeric code *)

(** What a feed cell or an argument of [clasificacion_richter] can be: [None],
    a float (NaN included), or an object that is not a number and does not
    read as one, for which [float(x)] raises and
    [pd.to_numeric(errors="coerce")] gives NaN.  The feed decodes JSON numbers
    and nulls, so text that spells a number is left out. *)
Inductive pyobj : Type :=
| PyNone
| PyFloat (f : float)
| PyOther (repr : string).

(** [pd.isna] on a scalar. *)
Definition pd_isna (x : pyobj) : bool :=
  match x with
  | PyNone => true
  | PyFloat f => is_nan f
  | PyOther _ => false
  end.

(** [float(x)] inside [try ... except Exception]: [None] is the exception. *)
Definition py_float (x : pyobj) : option float :=
  match x with
  | PyFloat f => Some f
  | PyNone | PyOther _ => None
  end.

(** ** clasificacion_richter (lines 53-75) *)

Definition clasificacion_richter (mag : pyobj) : string :=
  match mag with
  | PyNone => "desconocida"
  | _ =>
    if pd_isna mag then "desconocida"
    else
      match py_float mag with
      | None => "desconocida"
      | Some m =>
        if m <? 2 then "micro"
        else if (2 <=? m) && (m <=? 3.9) then "menor"
        else if (4 <=? m) && (m <=? 4.9) then "ligero"
        else if (5 <=? m) && (m <=? 5.9) then "moderado"
        else if (6 <=? m) && (m <=? 6.9) then "fuerte"
        else if (7 <=? m) && (m <=? 7.9) then "mayor"
        else if (8 <=? m) && (m <=? 9.9) then "épico"
        else "legendario"
      end
  end.

(** The nine tiers, in the order of the table. *)
Definition tiers : list string :=
  ["micro"; "menor"; "ligero"; "moderado"; "fuerte"; "mayor"; "épico";
   "legendario"; "desconocida"].


(** ** The pandas operations the script calls, on one float64 cell or column *)

Module Pandas.

(** [pd.to_numeric(col, errors="coerce")] on one cell. *)
Definition to_numeric (x : pyobj) : float :=
  match x with
  | PyFloat f => f
  | PyNone | PyOther _ => nan
  end.

(** [Series.clip(lower=lo)]: cells that are null or [>= lo] stay, the others
    become [lo]. *)
Definition clip_lower (lo x : float) : float :=
  if is_nan x || (lo <=? x) then x else lo.

(** [Series.clip(lower=lo, upper=hi)]: the lower bound is applied first, then
    cells of the column that are neither null nor [<= hi] become [hi]. *)
Definition clip (lo hi x : float) : float :=
  if is_nan x || (x <=? hi) then clip_lower lo x else hi.

(** [Series.fillna(v)]. *)
Definition fillna (v x : float) : float := if is_nan x then v else x.

(** [Series.between(lo, hi, inclusive="both")]: false on a null cell. *)
Definition between (lo hi x : float) : bool := (lo <=? x) && (x <=? hi).

(** The length of a column as a float64. *)
Definition float_of_nat (n : nat) : float :=
  of_uint63 (Uint63.of_Z (Z.of_nat n)).

(** [Series.sum()] with nulls skipped, added in index order (numpy groups
    the additions differently from eight cells on, which can change the last
    bit of the sum of a long column). *)
Definition sum (col : list float) : float :=
  fold_left add (filter (fun x => negb (is_nan x)) col) 0.

(** [Series.count()]: the cells that are not null. *)
Definition count (col : list float) : nat :=
  List.length (filter (fun x => negb (is_nan x)) col).

(** [Series.mean()] (skipna): the sum of the non-null cells over their
    number, NaN when there is none. *)
Definition mean (col : list float) : float :=
  if Nat.eqb (count col) 0 then nan else sum col / float_of_nat (count col).

(** [DataFrame.head(n)]. *)
Definition head {A : Type} (n : nat) (df : list A) : list A := firstn n df.

End Pandas.

(** ** Sorting: [DataFrame.sort_values(col, ascending=False, na_position="last")]

    The script passes no [kind], so pandas sorts with its default
    [kind="quicksort"], which it documents as not stable.  What holds of
    every algorithm that sorts is stated for a parameter: a [SortKind] sorts
    a list in ascending order of a comparison.  The algorithm that the
    script runs on the column [time_utc] is [numpy_quicksort_kind] below. *)

Class SortKind : Type :=
  sort_asc : forall A : Type, (A -> A -> bool) -> list A -> list A.

(** What every sort kind of pandas guarantees: the rows are rearranged, and
    they come out in ascending order when the comparison is total on them. *)
Definition total_on {A : Type} (le : A -> A -> bool) (l : list A) : Prop :=
  forall x y, In x l -> In y l -> le x y = true \/ le y x = true.

Definition sorts (k : SortKind) : Prop :=
  forall (A : Type) (le : A -> A -> bool) (l : list A),
    Permutation l (sort_asc A le l) /\
    (total_on le l -> Sorted (fun x y => le x y = true) (sort_asc A le l)).

(** Two insertion sorts that meet this contract, on which the examples are
    run: [stable_kind] keeps the rows of equal key in input order,
    [tie_reversing_kind] puts a row after the rows of equal key that
    followed it.  Neither is the algorithm of the script, which is
    [numpy_quicksort_kind] below. *)
Fixpoint insert_before {A : Type} (le : A -> A -> bool) (x : A) (l : list A) : list A :=
  match l with
  | [] => [x]
  | y :: l' => if le x y then x :: l else y :: insert_before le x l'
  end.

Fixpoint insert_after {A : Type} (le : A -> A -> bool) (x : A) (l : list A) : list A :=
  match l with
  | [] => [x]
  | y :: l' => if le y x then y :: insert_after le x l' else x :: l
  end.

Definition stable_kind : SortKind :=
  fun A le l => fold_right (insert_before le) [] l.

Definition tie_reversing_kind : SortKind :=
  fun A le l => fold_right (insert_after le) [] l.

Section SortValues.
Context {kind : SortKind}.
Context {R K : Type}.
(** The sort column of a row, [None] when the cell is null, and the order
    of its non-null values. *)
Variable key : R -> option K.
Variable le : K -> K -> bool.

Definition notna (r : R) : bool :=
  match key r with Some _ => true | None => false end.

Definition isna (r : R) : bool := negb (notna r).

Definition le_key (a b : R) : bool :=
  match key a, key b with
  | Some x, Some y => le x y
  | _, _ => true
  end.

(** pandas' [nargsort] for a descending sort with nulls last: the null rows
    are set aside in index order; the others are reversed, sorted in
    ascending order by the chosen kind and reversed again; the null rows
    follow them.  [reset_index(drop=True)] renumbers the rows. *)
Definition non_nulls_sorted (df : list R) : list R :=
  let non_nans := filter notna df in
  rev (sort_asc R le_key (rev non_nans)).

Definition sort_values_desc (df : list R) : list R :=
  let nans := filter isna df in
  non_nulls_sorted df ++ nans.
End SortValues.

(** ** numpy's quicksort, the default [kind] of [sort_values]

    The column [time_utc] is a datetime64 column, and pandas' [nargsort]
    sorts its non-null values with [ndarray.argsort(kind="quicksort")].  For
    datetime64 values numpy runs its [aquicksort_] (npysort/quicksort.cpp):
    an introsort on the array [tosort] of positions, comparing the values
    they point to.  A range of more than 17 positions is split around the
    median of its first, middle and last value; a shorter one is sorted by
    insertion; a range reached after too many splits is sorted by
    [aheapsort_].  The positions of a range are [pl .. pr], both included. *)

Module Numpy.
Section Argsort.
Context {A : Type}.
(** [Tag::less] on two values, and the array [v] of values. *)
Variable less : A -> A -> bool.
Variable v : list A.

(** [less(v[i], v[j])]. *)
Definition less_at (i j : nat) : bool :=
  match nth_error v i, nth_error v j with
  | Some x, Some y => less x y
  | _, _ => false
  end.

(** [tosort[i]] and [tosort[i] = x]. *)
Definition get (tosort : list nat) (i : Z) : nat := nth (Z.to_nat i) tosort 0%nat.

Fixpoint set_nat (tosort : list nat) (i : nat) (x : nat) : list nat :=
  match tosort, i with
  | [], _ => []
  | _ :: t, O => x :: t
  | y :: t, S i' => y :: set_nat t i' x
  end.

Definition set (tosort : list nat) (i : Z) (x : nat) : list nat :=
  if (i <? 0)%Z then tosort else set_nat tosort (Z.to_nat i) x.

(** [INTP_SWAP(tosort[i], tosort[j])]. *)
Definition swap (tosort : list nat) (i j : Z) : list nat :=
  set (set tosort i (get tosort j)) j (get tosort i).

Definition SMALL_QUICKSORT : Z := 16.

(** [do { ++pi; } while (less(v[*pi], vp))], entered at [pi + 1]; [vp] is
    the value at position [p] of [v].  The fuel is the length of the array. *)
Fixpoint scan_up (fuel : nat) (tosort : list nat) (p : nat) (pi : Z) : Z :=
  match fuel with
  | O => pi
  | S f => if less_at (get tosort pi) p then scan_up f tosort p (pi + 1)%Z else pi
  end.

(** [do { --pj; } while (less(vp, v[*pj]))], entered at [pj - 1]. *)
Fixpoint scan_down (fuel : nat) (tosort : list nat) (p : nat) (pj : Z) : Z :=
  match fuel with
  | O => pj
  | S f => if less_at p (get tosort pj) then scan_down f tosort p (pj - 1)%Z else pj
  end.

(** The [for (;;)] loop of the partition. *)
Fixpoint partition_loop (fuel : nat) (tosort : list nat) (p : nat) (pi pj : Z)
  : list nat * Z :=
  match fuel with
  | O => (tosort, pi)
  | S f =>
    let pi := scan_up (List.length tosort) tosort p (pi + 1)%Z in
    let pj := scan_down (List.length tosort) tosort p (pj - 1)%Z in
    if (pi >=? pj)%Z then (tosort, pi)
    else partition_loop f (swap tosort pi pj) p pi pj
  end.

(** One split of the range [pl .. pr]: the array after it and the final
    place [pi] of the pivot. *)
Definition partition (tosort : list nat) (pl pr : Z) : list nat * Z :=
  let pm := (pl + Z.shiftr (pr - pl) 1)%Z in
  let tosort := if less_at (get tosort pm) (get tosort pl) then swap tosort pm pl else tosort in
  let tosort := if less_at (get tosort pr) (get tosort pm) then swap tosort pr pm else tosort in
  let tosort := if less_at (get tosort pm) (get tosort pl) then swap tosort pm pl else tosort in
  let p := get tosort pm in
  let pi := pl in
  let pj := (pr - 1)%Z in
  let tosort := swap tosort pm pj in
  let '(tosort, pi) := partition_loop (List.length tosort) tosort p pi pj in
  let pk := (pr - 1)%Z in
  (swap tosort pi pk, pi).

(** [while (pj > pl && less(vp, v[*pk])) { *pj-- = *pk--; } *pj = vi;] *)
Fixpoint insertion_shift (fuel : nat) (tosort : list nat) (pl pj : Z) (vi : nat)
  : list nat :=
  match fuel with
  | O => set tosort pj vi
  | S f =>
    if (pj >? pl)%Z && less_at vi (get tosort (pj - 1)%Z)
    then insertion_shift f (set tosort pj (get tosort (pj - 1)%Z)) pl (pj - 1)%Z vi
    else set tosort pj vi
  end.

(** The insertion sort of the range [pl .. pr]. *)
Definition insertion_sort (tosort : list nat) (pl pr : Z) : list nat :=
  fold_left
    (fun tosort k =>
       let pi := (pl + 1 + Z.of_nat k)%Z in
       insertion_shift (List.length tosort) tosort pl pi (get tosort pi))
    (seq 0 (Z.to_nat (pr - pl))) tosort.

(** [aheapsort_] on the [n] positions from [pl] on; [a[k]] is the position
    [pl + k - 1] of the array. *)
Fixpoint sift_down (fuel : nat) (tosort : list nat) (pl n : Z) (tmp : nat) (i j : Z)
  : list nat :=
  match fuel with
  | O => set tosort (pl + i - 1)%Z tmp
  | S f =>
    if (j <=? n)%Z then
      let j := if (j <? n)%Z && less_at (get tosort (pl + j - 1)%Z) (get tosort (pl + j)%Z)
               then (j + 1)%Z else j in
      if less_at tmp (get tosort (pl + j - 1)%Z)
      then sift_down f (set tosort (pl + i - 1)%Z (get tosort (pl + j - 1)%Z)) pl n tmp j (j + j)%Z
      else set tosort (pl + i - 1)%Z tmp
    else set tosort (pl + i - 1)%Z tmp
  end.

Definition aheapsort (tosort : list nat) (pl n : Z) : list nat :=
  let heap :=
    fold_left
      (fun tosort k =>
         let l := (Z.shiftr n 1 - Z.of_nat k)%Z in
         sift_down (List.length tosort) tosort pl n (get tosort (pl + l - 1)%Z) l (Z.shiftl l 1))
      (seq 0 (Z.to_nat (Z.shiftr n 1))) tosort in
  fold_left
    (fun tosort k =>
       let n := (n - Z.of_nat k)%Z in
       let tmp := get tosort (pl + n - 1)%Z in
       let tosort := set tosort (pl + n - 1)%Z (get tosort pl) in
       sift_down (List.length tosort) tosort pl (n - 1)%Z tmp 1%Z 2%Z)
    (seq 0 (Z.to_nat (n - 1))) heap.

(** The loop of [aquicksort_]: the range being sorted, the splits it may
    still take ([cdepth]) and the stack of the ranges put aside, each with
    the [cdepth] it was put aside with.  [splitting] is false at the top of
    the outer loop, where [cdepth] is tested, and true inside the inner
    loop. *)
Fixpoint aquicksort_loop (fuel : nat) (splitting : bool) (tosort : list nat)
    (pl pr cdepth : Z) (stack : list (Z * Z * Z)) : list nat :=
  match fuel with
  | O => tosort
  | S f =>
    let stack_pop tosort :=
      match stack with
      | [] => tosort
      | (pl', pr', cdepth') :: stack' =>
        aquicksort_loop f false tosort pl' pr' cdepth' stack'
      end in
    if negb splitting && (cdepth <? 0)%Z
    then stack_pop (aheapsort tosort pl (pr - pl + 1)%Z)
    else if (pr - pl >? SMALL_QUICKSORT)%Z then
      let '(tosort, pi) := partition tosort pl pr in
      let cdepth := (cdepth - 1)%Z in
      if (pi - pl <? pr - pi)%Z
      then aquicksort_loop f true tosort pl (pi - 1)%Z cdepth
                           ((pi + 1, pr, cdepth)%Z :: stack)
      else aquicksort_loop f true tosort (pi + 1)%Z pr cdepth
                           ((pl, pi - 1, cdepth)%Z :: stack)
    else stack_pop (insertion_sort tosort pl pr)
  end.

(** [npy_get_msb]: the position of the highest bit set. *)
Definition npy_get_msb (n : Z) : Z := if (n <=? 0)%Z then 0%Z else Z.log2 n.

(** [v.argsort(kind="quicksort")]. *)
Definition argsort : list nat :=
  let num := Z.of_nat (List.length v) in
  aquicksort_loop (4 * List.length v + 4) false (seq 0 (List.length v))
                  0%Z (num - 1)%Z (npy_get_msb num * 2)%Z [].

(** [v[argsort]]. *)
Definition take (indexer : list nat) : list A :=
  flat_map (fun i => match nth_error v i with Some x => [x] | None => [] end) indexer.
End Argsort.
End Numpy.

(** The sort kind of the script: the rows in the order of numpy's quicksort
    on their keys, [a < b] being "not [b <= a]". *)
Definition numpy_quicksort_kind : SortKind :=
  fun A le l => Numpy.take l (Numpy.argsort (fun x y => negb (le y x)) l).

(** The insertion sort of numpy, on lists of positions: [x] enters a sorted
    range at its right end and passes the positions whose value is greater
    than its own.  The range is held from right to left. *)
Fixpoint insert_from_right (lt : nat -> nat -> bool) (x : nat) (range : list nat)
  : list nat :=
  match range with
  | [] => [x]
  | y :: range' => if lt x y then y :: insert_from_right lt x range' else x :: range
  end.

(** ** Dates *)

(** A Python [datetime] as the microseconds from 1970-01-01T00:00:00 to its
    wall-clock reading; an aware one carries its offset from UTC.  A feed cell
    that is no [datetime] is [NotDatetime]. *)
Inductive pytime : Type :=
| Naive (wall : Z)
| Aware (wall : Z) (utcoffset : Z)
| NotDatetime.

(** [_to_utc] (lines 136-141); [None] is [pd.NaT]. *)
Definition _to_utc (x : pytime) : option Z :=
  match x with
  | Naive wall => Some wall
  | Aware wall utcoffset => Some (wall - utcoffset)%Z
  | NotDatetime => None
  end.

Definition us_per_day : Z := 86400000000.

(** Year, month and day of a day number counted from 1970-01-01 in the
    proleptic Gregorian calendar. *)
Definition civil_from_days (days : Z) : Z * Z * Z :=
  (let z := days + 719468 in
   let era := z / 146097 in
   let doe := z - era * 146097 in
   let yoe := (doe - doe / 1460 + doe / 36524 - doe / 146096) / 365 in
   let doy := doe - (365 * yoe + yoe / 4 - yoe / 100) in
   let mp := (5 * doy + 2) / 153 in
   let d := doy - (153 * mp + 2) / 5 + 1 in
   let m := if mp <? 10 then mp + 3 else mp - 9 in
   let y := yoe + era * 400 + (if m <=? 2 then 1 else 0) in
   (y, m, d))%Z.

Definition str_of_Z (z : Z) : string := NilZero.string_of_int (Z.to_int z).

Definition MESES_ES : list (Z * string) :=
  [(1%Z, "Enero"); (2%Z, "Febrero"); (3%Z, "Marzo"); (4%Z, "Abril");
   (5%Z, "Mayo"); (6%Z, "Junio"); (7%Z, "Julio"); (8%Z, "Agosto");
   (9%Z, "Septiembre"); (10%Z, "Octubre"); (11%Z, "Noviembre");
   (12%Z, "Diciembre")].

(** [MESES_ES.get(month, month)] inside an f-string. *)
Definition mes_es (month : Z) : string :=
  match find (fun p => Z.eqb (fst p) month) MESES_ES with
  | Some p => snd p
  | None => str_of_Z month
  end.

(** [fecha_es_sola] (lines 78-82). *)
Definition fecha_es_sola (dt_utc : option Z) : string :=
  match dt_utc with
  | None => ""
  | Some t =>
    let '(y, m, d) := civil_from_days (t / us_per_day)%Z in
    str_of_Z d ++ " de " ++ mes_es m ++ " de " ++ str_of_Z y
  end.

(** Two digits, zero padded ([%I], [%M], [%S]). *)
Definition pad2 (z : Z) : string :=
  if (z <? 10)%Z then "0" ++ str_of_Z z else str_of_Z z.

(** [TZ_PR], [ZoneInfo("America/Puerto_Rico")]: the offset from UTC in force
    at a UTC instant, in microseconds.  The time zone database gives the
    zone local mean time, 4 h 24 min 25 s behind UTC, until 28 March 1899,
    16:24:25 UTC; war time, three hours behind, from 3 May 1942, 04:00 UTC,
    to 30 September 1945, 05:00 UTC; and four hours behind at every other
    instant. *)
Definition TZ_PR_utcoffset (dt_utc : Z) : Z :=
  if (dt_utc <? -2233035335 * 1000000)%Z then (-15865 * 1000000)%Z
  else if (-873057600 * 1000000 <=? dt_utc)%Z && (dt_utc <? -765399600 * 1000000)%Z
       then (-3 * 3600 * 1000000)%Z
       else (-4 * 3600 * 1000000)%Z.

(** 30 September 1945, 05:00 UTC, from which the zone is four hours behind
    UTC without interruption. *)
Definition AST_DESDE : Z := (-765399600 * 1000000)%Z.

(** [fecha_peticion_es] (lines 85-88), from the UTC instant of the request. *)
Definition fecha_peticion_es (dt_utc : Z) : string :=
  let dt := (dt_utc + TZ_PR_utcoffset dt_utc)%Z in
  let '(y, m, d) := civil_from_days (dt / us_per_day)%Z in
  let secs := ((dt mod us_per_day) / 1000000)%Z in
  let h := (secs / 3600)%Z in
  let h12 := if (h mod 12 =? 0)%Z then 12%Z else (h mod 12)%Z in
  str_of_Z d ++ " de " ++ mes_es m ++ " de " ++ str_of_Z y ++ " "
  ++ pad2 h12 ++ ":" ++ pad2 ((secs / 60) mod 60)%Z ++ ":" ++ pad2 (secs mod 60)%Z
  ++ (if (h <? 12)%Z then " AM" else " PM").

(** ** The feed and the table *)

(** One event of the feed: [QuakeFeed] gives index-aligned sequences of equal
    length ([location(i)], [event_times], [depths], [places], [magnitudes]),
    held here as one record per index. *)
Record RawEvent : Type := {
  ev_time : pytime;
  ev_lon : pyobj;
  ev_lat : pyobj;
  ev_place : string;
  ev_mag : pyobj;
  ev_depth : pyobj
}.

(** A row of the DataFrame [generaTabla] returns (the columns "localización"
    and "clasificación" are spelt without accent). *)
Record Fila : Type := {
  time : pytime;
  lon : float;
  lat : float;
  localizacion : string;
  magnitud : float;
  profundidad : float;
  magnitud_size : float;
  time_utc : option Z;
  fecha : string;
  clasificacion : string
}.

(** Lines 130-133: the column [magnitud_size] from the column [magnitud]. *)
Definition magnitud_size_col (magnitud : list float) : list float :=
  let size := map (fun m => Pandas.fillna 0 (Pandas.clip_lower 0 m)) magnitud in
  if forallb (fun x => x =? 0) size then map (fun _ => 0.1) size else size.

(** The row of event [e], given its cell of [magnitud_size]. *)
Definition fila_de (e : RawEvent) (size : float) : Fila :=
  let magnitud := Pandas.to_numeric (ev_mag e) in
  let time_utc := _to_utc (ev_time e) in
  {| time := ev_time e;
     lon := Pandas.to_numeric (ev_lon e);
     lat := Pandas.to_numeric (ev_lat e);
     localizacion := ev_place e;
     magnitud := magnitud;
     profundidad := Pandas.to_numeric (ev_depth e);
     magnitud_size := size;
     time_utc := time_utc;
     fecha := fecha_es_sola time_utc;
     clasificacion := clasificacion_richter (PyFloat magnitud) |}.

(** The frame of lines 121-145, before it is sorted. *)
Definition tabla_sin_ordenar (feed : list RawEvent) : list Fila :=
  let magnitud := map (fun e => Pandas.to_numeric (ev_mag e)) feed in
  map (fun p => fila_de (fst p) (snd p)) (combine feed (magnitud_size_col magnitud)).

Section Script.
Context {kind : SortKind}.
(** The feed client: the events that a request for a severity and a period
    answers with.  A request that fails raises in the constructor of
    [QuakeFeed] (line 108); that outcome has no counterpart here. *)
Variable QuakeFeed : string -> string -> list RawEvent.

(** [generaTabla] (lines 102-149). *)
Definition generaTabla (severidad periodo : string) : list Fila :=
  let feed := QuakeFeed severidad periodo in
  sort_values_desc time_utc Z.leb (tabla_sin_ordenar feed).
End Script.

(** ** filtrar_puerto_rico (lines 91-98) *)

Record bbox : Type := { lat_min : float; lat_max : float; lon_min : float; lon_max : float }.

Definition PR_BBOX : bbox :=
  {| lat_min := 17.6; lat_max := 18.7; lon_min := -67.8; lon_max := -64.8 |}.

Definition en_puerto_rico (r : Fila) : bool :=
  Pandas.between (lat_min PR_BBOX) (lat_max PR_BBOX) (lat r)
  && Pandas.between (lon_min PR_BBOX) (lon_max PR_BBOX) (lon r).

Definition filtrar_puerto_rico (df : list Fila) : list Fila :=
  match df with
  | [] => df
  | _ => filter en_puerto_rico df
  end.

(** Lines 304-305. *)
Definition filtro_zona (zona : string) (df : list Fila) : list Fila :=
  if String.eqb zona "Puerto Rico" then filtrar_puerto_rico df else df.

(** ** Colour range (lines 308-312) *)

Definition rango_fijo (zona sev_label periodo_label : string) : bool :=
  String.eqb zona "Puerto Rico" && String.eqb sev_label "todos"
  && String.eqb periodo_label "mes".

Definition magnitud_color_col (zona sev_label periodo_label : string)
    (df : list Fila) : list float :=
  if rango_fijo zona sev_label periodo_label
  then map (fun r => Pandas.clip 1.8 3.0 (magnitud r)) df
  else map magnitud df.

(** ** Metrics (lines 316-320) *)

Definition cantidad (df : list Fila) : nat := List.length df.

Definition prom_mag (df : list Fila) : float :=
  if Nat.ltb 0 (cantidad df) then Pandas.mean (map magnitud df) else nan.

Definition prom_prof (df : list Fila) : float :=
  if Nat.ltb 0 (cantidad df) then Pandas.mean (map profundidad df) else nan.

(** Rounding of [num / den] ([den > 0]) to the nearest integer, ties to even. *)
Definition round_half_even_div (num den : Z) : Z :=
  (let q := num / den in
   match 2 * (num mod den) ?= den with
   | Lt => q
   | Gt => q + 1
   | Eq => if Z.even q then q else q + 1
   end)%Z.

(** The format [:.2f] of an f-string: the exact value of the float rounded to
    two decimals. *)
Definition format_2f (x : float) : string :=
  match Prim2SF x with
  | S754_nan => "nan"
  | S754_infinity s => if s then "-inf" else "inf"
  | S754_zero s => if s then "-0.00" else "0.00"
  | S754_finite s m e =>
    let n := if (0 <=? e)%Z then (Zpos m * 2 ^ e * 100)%Z
             else round_half_even_div (Zpos m * 100) (2 ^ (- e)) in
    (if s then "-" else "") ++ str_of_Z (n / 100) ++ "." ++ pad2 (n mod 100)
  end.

Definition prom_mag_str (df : list Fila) : string :=
  if Nat.ltb 0 (cantidad df) then format_2f (prom_mag df) else "N/A".

Definition prom_prof_str (df : list Fila) : string :=
  if Nat.ltb 0 (cantidad df) then format_2f (prom_prof df) ++ " km" else "N/A".

(** ** The table of the strongest events (lines 339-344) *)

Record FilaTabla : Type := {
  t_fecha : string;
  t_localizacion : string;
  t_magnitud : float;
  t_clasificacion : string
}.

(** [df[["fecha", "localización", "magnitud", "clasificación"]]]. *)
Definition columnas_tabla (r : Fila) : FilaTabla :=
  {| t_fecha := fecha r;
     t_localizacion := localizacion r;
     t_magnitud := magnitud r;
     t_clasificacion := clasificacion r |}.

(** A float64 cell as a sort key: null when it is NaN. *)
Definition float_key (x : float) : option float :=
  if is_nan x then None else Some x.

Section Tabla.
Context {kind : SortKind}.

(** The rows of [df_tabla], each with its label in the index
    [range(1, len(df_tabla) + 1)]. *)
Definition df_tabla (df : list Fila) (n_eventos_tabla : nat) : list (nat * FilaTabla) :=
  let t := map columnas_tabla df in
  let t := sort_values_desc (fun r => float_key (t_magnitud r)) leb t in
  let t := Pandas.head n_eventos_tabla t in
  combine (seq 1 (List.length t)) t.
End Tabla.

(** ** Figures (lines 152-236) *)

Record Marcador : Type := {
  m_lat : float;
  m_lon : float;
  m_color : float;
  m_size : float;
  m_hover_name : string;
  m_hover_magnitud : float;
  m_hover_fecha : string;
  m_hover_profundidad : float
}.

Record Mapa : Type := {
  center : float * float;
  zoom : float;
  marcadores : list Marcador;
  (** [cmin], [cmax] and the tick values when the range is fixed. *)
  coloraxis : option (float * float * list float)
}.

Inductive figura : Type :=
| Histograma (eje : string) (x : list float)
| ScatterMapbox (m : Mapa).

Definition marcador (r : Fila) (color : float) : Marcador :=
  {| m_lat := lat r; m_lon := lon r; m_color := color;
     m_size := magnitud_size r; m_hover_name := localizacion r;
     m_hover_magnitud := magnitud r; m_hover_fecha := fecha r;
     m_hover_profundidad := profundidad r |}.

(** [generaMapa]; the frame it receives carries the column [magnitud_color]. *)
Definition generaMapa (df : list Fila) (magnitud_color : list float)
    (zona : string) (rango_fijo : bool) : figura :=
  let ticks := [1.8; 2.0; 2.2; 2.4; 2.6; 2.8; 3.0] in
  ScatterMapbox
    {| center := if String.eqb zona "Puerto Rico" then (18.25178, -66.254512) else (10, 0);
       zoom := if String.eqb zona "Puerto Rico" then 7.5 else 1.0;
       marcadores := map (fun p => marcador (fst p) (snd p)) (combine df magnitud_color);
       coloraxis := if rango_fijo then Some (1.8, 3.0, ticks) else None |}.

Definition generaHistogrammag (df : list Fila) : figura :=
  Histograma "magnitud" (map (fun r => Pandas.clip_lower 0 (magnitud r)) df).

Definition generaHistogramprof (df : list Fila) : figura :=
  Histograma "profundidad" (map (fun r => Pandas.clip_lower 0 (profundidad r)) df).

(** ** The rendering pass (lines 287-362) *)

(** What the main panel shows, in the order the script emits it. *)
Inductive widget : Type :=
| Title (s : string)
| Metricas (fecha_peticion : string) (cantidad : nat) (prom_mag prom_prof : string)
| Warning (s : string)
| Dataframe (filas : list (nat * FilaTabla))
| Markdown (s : string)
| PlotlyChart (f : figura)
| Info (s : string).

(** The sidebar. *)
Record Controles : Type := {
  sev_label : string;
  periodo_label : string;
  zona : string;
  mostrar_mapa : bool;
  mostrar_tabla : bool;
  (** The value of the slider "Cantidad de eventos" (5 to 20, step 1). *)
  slider : nat
}.

Definition APP_TITULO : string :=
  "Datos en Tiempo Real de los Terremotos en Puerto Rico y en el Mundo".

Definition sev_map : list (string * string) :=
  [("todos", "all"); ("significativo", "significant"); ("4.5", "4.5");
   ("2.5", "2.5"); ("1.0", "1.0")].

Definition periodo_map : list (string * string) :=
  [("mes", "month"); ("semana", "week"); ("día", "day")].

(** [d[k]] on a dict: [None] is the [KeyError]. *)
Definition getitem (d : list (string * string)) (k : string) : option string :=
  option_map snd (find (fun p => String.eqb (fst p) k) d).

(** Lines 271-273. *)
Definition n_eventos_tabla (c : Controles) : nat :=
  if mostrar_tabla c then slider c else 5%nat.

Definition is_chart (w : widget) : bool :=
  match w with
  | Dataframe _ | PlotlyChart _ => true
  | _ => false
  end.

Section Panel.
Context {kind : SortKind}.
Variable QuakeFeed : string -> string -> list RawEvent.

(** The frame of the pass after the zone filter (lines 300-305). *)
Definition df_filtrado (c : Controles) : option (list Fila) :=
  match getitem sev_map (sev_label c), getitem periodo_map (periodo_label c) with
  | Some severidad_feed, Some periodo_feed =>
    Some (filtro_zona (zona c) (generaTabla QuakeFeed severidad_feed periodo_feed))
  | _, _ => None
  end.

(** What follows the metrics (lines 334-362): the notice and [st.stop()] on
    an empty frame, else the table, the histograms and the map. *)
Definition vistas (c : Controles) (df : list Fila) : list widget :=
  match df with
  | [] => [Warning "No se encontraron eventos para los filtros seleccionados."]
  | _ =>
    (if mostrar_tabla c then [Dataframe (df_tabla df (n_eventos_tabla c))] else [])
    ++ [Markdown "#### Histograma de Magnitudes";
        PlotlyChart (generaHistogrammag df);
        Markdown "#### Histograma de Profundidades";
        PlotlyChart (generaHistogramprof df)]
    ++ (if mostrar_mapa c
        then [Markdown "<br>";
              PlotlyChart
                (generaMapa df
                   (magnitud_color_col (zona c) (sev_label c) (periodo_label c) df)
                   (zona c)
                   (rango_fijo (zona c) (sev_label c) (periodo_label c)))]
        else [Info "Activa “Mostrar mapa” en la barra izquierda para ver el mapa."])
  end.

(** The main panel of one pass whose request to the feed is answered;
    [fecha_peticion] is the UTC instant of the request.  [None] is a pass
    aborted by the [KeyError] of lines 291-292, before anything is shown.  A
    pass whose request fails is aborted after the title by the exception of
    the feed client; [QuakeFeed] being a function, no such pass is
    described here. *)
Definition panel (c : Controles) (fecha_peticion : Z) : option (list widget) :=
  match df_filtrado c with
  | Some df =>
    Some ([Title APP_TITULO;
           Metricas (fecha_peticion_es fecha_peticion) (cantidad df)
                    (prom_mag_str df) (prom_prof_str df)]
          ++ vistas c df)
  | None => None
  end.
End Panel.

(** ** Properties stated by the specification *)

(** The rows of a frame whose [time_utc] is [t] ([None]: the null ones), in
    the order of the frame. *)
Definition mismo_time_utc (t : option Z) (r : Fila) : bool :=
  match t, time_utc r with
  | Some a, Some b => Z.eqb a b
  | None, None => true
  | _, _ => false
  end.

(** [b] is not more recent than [a]. *)
Definition no_posterior (a b : Fila) : Prop :=
  match time_utc a, time_utc b with
  | Some ta, Some tb => (tb <= ta)%Z
  | _, _ => True
  end.

(** [out] holds the rows of [df] with non-null times first, from the most
    recent to the oldest, and then the rows of null time. *)
Definition desc_nulls_last (df out : list Fila) : Prop :=
  Permutation df out /\
  exists recent : list Fila,
    out = recent ++ filter (isna time_utc) df /\
    Forall (fun r => time_utc r <> None) recent /\
    Sorted no_posterior recent.

(** [out] keeps the relative order that rows of equal [time_utc], and rows of
    null [time_utc], have in [df]. *)
Definition keeps_order_of_ties (df out : list Fila) : Prop :=
  forall t : option Z, filter (mismo_time_utc t) out = filter (mismo_time_utc t) df.

(** The specification's [magnitude_size]: max(magnitude, 0), a null magnitude
    taken as 0. *)
Definition fmax (a b : float) : float := if a <? b then b else a.

Definition size_spec (m : float) : float := if is_nan m then 0 else fmax m 0.

(** A magnitude that is null or at most 0. *)
Definition null_or_nonpos (m : float) : bool := is_nan m || (m <=? 0).

(** The magnitudes of a feed as the column [magnitud] holds them. *)
Definition magnitudes (feed : list RawEvent) : list float :=
  map (fun e => Pandas.to_numeric (ev_mag e)) feed.

(** A cell inside the fixed colour range. *)
Definition in_color_range (c : float) : bool := (1.8 <=? c) && (c <=? 3.0).

(** Descending magnitudes in the table. *)
Definition no_mayor (a b : FilaTabla) : Prop := (t_magnitud b <=? t_magnitud a) = true.

(** ** Feeds used as examples *)

Definition evento (t : pytime) (place : string) (lat lon mag : pyobj) : RawEvent :=
  {| ev_time := t; ev_lon := lon; ev_lat := lat; ev_place := place;
     ev_mag := mag; ev_depth := PyFloat 10 |}.

(** Two events of Puerto Rico at the same instant, and one without time. *)
Definition feed_empate : list RawEvent :=
  [evento (Naive 7) "a" (PyFloat 18) (PyFloat (-66)) (PyFloat 2.5);
   evento (Naive 7) "b" (PyFloat 18.1) (PyFloat (-66.2)) (PyFloat 3.1);
   evento NotDatetime "c" (PyFloat 18.2) (PyFloat (-66.5)) (PyFloat 1.0)].

(** An event of Puerto Rico whose magnitude is null. *)
Definition feed_sin_magnitud : list RawEvent :=
  [evento (Naive 9) "d" (PyFloat 18) (PyFloat (-66)) PyNone].

(** An event whose latitude is not a number, and one of Puerto Rico. *)
Definition feed_sin_latitud : list RawEvent :=
  [evento (Naive 9) "e" (PyOther "n/d") (PyFloat (-66)) (PyFloat 2.0);
   evento (Naive 8) "f" (PyFloat 18) (PyFloat (-66)) (PyFloat 3.0)].

(** Scenario A: magnitudes 1.5, 4.0 and null. *)
Definition feed_A : list RawEvent :=
  [evento (Naive 30) "x" (PyFloat 18) (PyFloat (-66)) (PyFloat 1.5);
   evento (Naive 20) "y" (PyFloat 18) (PyFloat (-66)) (PyFloat 4.0);
   evento (Naive 10) "z" (PyFloat 18) (PyFloat (-66)) PyNone].

(** Twelve events of magnitudes 1.0, 1.5, ..., 6.5 (scenario D). *)
Definition feed_D : list RawEvent :=
  map (fun i => evento (Naive (Z.of_nat i)) "p" (PyFloat 18) (PyFloat (-66))
                       (PyFloat (Pandas.float_of_nat (i + 2) / 2)))
      (seq 0 12).

(** Scenario C: every magnitude is 0. *)
Definition feed_ceros : list RawEvent :=
  [evento (Naive 3) "g" (PyFloat 18) (PyFloat (-66)) (PyFloat 0);
   evento (Naive 2) "h" (PyFloat 18) (PyFloat (-66)) (PyFloat 0)].

Definition controles_referencia : Controles :=
  {| sev_label := "todos"; periodo_label := "mes"; zona := "Puerto Rico";
     mostrar_mapa := true; mostrar_tabla := false; slider := 5 |}.

(** The reference configuration: the regional zone, severity "all" and
    window "month" of the feed. *)
Definition configuracion_referencia (zona sev_label periodo_label : string) : Prop :=
  zona = "Puerto Rico" /\
  getitem sev_map sev_label = Some "all" /\
  getitem periodo_map periodo_label = Some "month".

(** A colour cell is right for its magnitude under the fixed range: null for
    a null magnitude, inside the range otherwise. *)
Definition color_pinned (m c : float) : Prop :=
  if is_nan m then is_nan c = true else in_color_range c = true.

(** Eighteen events of Puerto Rico at one instant, named "0" to "17" in the
    order of the feed. *)
Definition feed_enjambre : list RawEvent :=
  map (fun i => evento (Naive 7) (str_of_Z (Z.of_nat i))
                       (PyFloat 18) (PyFloat (-66)) (PyFloat 2.5))
      (seq 0 18).

(** Twelve events of Puerto Rico, one per day from the most recent to the
    oldest, whose magnitudes are in no order; one magnitude is null. *)
Definition feed_doce : list RawEvent :=
  map (fun p => evento (Naive (Z.of_nat (fst (fst p)) * us_per_day)) (snd (fst p))
                       (PyFloat 18) (PyFloat (-66)) (snd p))
      [(11%nat, "Guanica", PyFloat 2.1); (10%nat, "Ponce", PyFloat 5.4);
       (9%nat, "Lajas", PyNone); (8%nat, "Yauco", PyFloat 3.3);
       (7%nat, "Guayanilla", PyFloat 6.0); (6%nat, "Cabo Rojo", PyFloat 1.2);
       (5%nat, "Penuelas", PyFloat 4.8); (4%nat, "Mayaguez", PyFloat 2.9);
       (3%nat, "Rincon", PyFloat 3.95); (2%nat, "Aguadilla", PyFloat 0.5);
       (1%nat, "Arecibo", PyFloat 4.1); (0%nat, "Fajardo", PyFloat 5.0)].

(** ** The sidebar and what the pass may show *)

(** The options of the three select boxes (lines 242-263). *)
Definition OPCIONES_SEVERIDAD : list string :=
  ["todos"; "significativo"; "4.5"; "2.5"; "1.0"].

Definition OPCIONES_PERIODO : list string := ["mes"; "semana"; "día"].

Definition OPCIONES_ZONA : list string := ["Puerto Rico"; "Mundo"].

(** The values the docstring of [generaTabla] lists for its arguments
    (lines 105-106). *)
Definition SEVERIDADES_FEED : list string := ["all"; "significant"; "4.5"; "2.5"; "1.0"].

Definition PERIODOS_FEED : list string := ["month"; "week"; "day"].

(** A frame in the order of the table: the rows of non-null time from the
    most recent to the oldest, each one not older than any row after it, and
    then the rows of null time. *)
Definition recent_first (df : list Fila) : Prop :=
  exists recent nulls : list Fila,
    df = recent ++ nulls /\
    Forall (fun r => time_utc r <> None) recent /\
    Forall (fun r => time_utc r = None) nulls /\
    StronglySorted no_posterior recent.

(** The tier the table of thresholds gives to a magnitude of [k] tenths. *)
Definition tier_of_tenths (k : nat) : string :=
  if Nat.ltb k 20 then "micro"
  else if Nat.leb k 39 then "menor"
  else if Nat.leb k 49 then "ligero"
  else if Nat.leb k 59 then "moderado"
  else if Nat.leb k 69 then "fuerte"
  else if Nat.leb k 79 then "mayor"
  else if Nat.leb k 99 then "épico"
  else "legendario".

(** The magnitude of [k] tenths as the feed decodes it: the binary64 value
    nearest to [k / 10]. *)
Definition tenths (k : nat) : float := Pandas.float_of_nat k / 10.

(** The widgets of a kind in what a pass shows. *)
Definition is_warning (w : widget) : bool :=
  match w with Warning _ => true | _ => false end.

Definition is_info (w : widget) : bool :=
  match w with Info _ => true | _ => false end.

Definition is_map (w : widget) : bool :=
  match w with PlotlyChart (ScatterMapbox _) => true | _ => false end.

Definition is_histogram (w : widget) : bool :=
  match w with PlotlyChart (Histograma _ _) => true | _ => false end.

Definition is_dataframe (w : widget) : bool :=
  match w with Dataframe _ => true | _ => false end.

(** The markers of a figure (none for a histogram) and its colour axis. *)
Definition marcadores_de (f : figura) : list Marcador :=
  match f with
  | ScatterMapbox m => marcadores m
  | Histograma _ _ => []
  end.

Definition coloraxis_de (f : figura) : option (float * float * list float) :=
  match f with
  | ScatterMapbox m => coloraxis m
  | Histograma _ _ => None
  end.

(** The series handed to [px.histogram], one value per row of the frame,
    the null ones included; plotly leaves the null values out of the bins. *)
Definition valores_de (f : figura) : list float :=
  match f with
  | Histograma _ x => x
  | ScatterMapbox _ => []
  end.

(** An event of Puerto Rico of magnitude 0 and a stronger one elsewhere. *)
Definition feed_region_ceros : list RawEvent :=
  [evento (Naive 9) "Tokyo" (PyFloat 35.6) (PyFloat 139.7) (PyFloat 5.2);
   evento (Naive 8) "Ponce" (PyFloat 18) (PyFloat (-66.6)) (PyFloat 0)].

(** ** Theorems *)

(** *** Order of binary64 values *)

Lemma Prim2SF_nan (x : float) : is_nan x = true -> Prim2SF x = S754_nan.
Proof. intros H. unfold Prim2SF. rewrite H. reflexivity. Qed.

Lemma Prim2SF_not_nan (x : float) : is_nan x = false -> Prim2SF x <> S754_nan.
Proof.
  intros H. unfold Prim2SF. rewrite H.
  destruct (is_zero x); [discriminate|].
  destruct (is_infinity x); [discriminate|].
  destruct (Z.frexp x) as [r e].
  destruct (shr_fexp _ _ _ _ _) as [sh e'].
  destruct (shr_m sh); discriminate.
Qed.

Lemma SFcompare_antisym (x y : spec_float) :
  x <> S754_nan -> y <> S754_nan ->
  exists c, SFcompare x y = Some c /\ SFcompare y x = Some (CompOpp c).
Proof.
  intros Hx Hy.
  destruct x as [sx|sx| |sx mx ex], y as [sy|sy| |sy my ey];
    try congruence; simpl;
    try (destruct sx; destruct sy; eexists; split; reflexivity);
    try (destruct sx; eexists; split; reflexivity);
    try (destruct sy; eexists; split; reflexivity).
  destruct sx, sy; try (eexists; split; reflexivity);
    rewrite (Z.compare_antisym ex ey);
    change (Pos.compare_cont Eq my mx) with (Pos.compare_cont (CompOpp Eq) my mx);
    rewrite <- (Pos.compare_cont_antisym mx my Eq);
    destruct (ex ?= ey)%Z; simpl;
    try (eexists; split; reflexivity).
  all: destruct (Pos.compare_cont Eq mx my); simpl; eexists; split; reflexivity.
Qed.

Lemma leb_total (x y : float) :
  is_nan x = false -> is_nan y = false -> (x <=? y) = true \/ (y <=? x) = true.
Proof.
  intros Hx Hy. rewrite !leb_spec. unfold SFleb.
  destruct (SFcompare_antisym _ _ (Prim2SF_not_nan x Hx) (Prim2SF_not_nan y Hy))
    as [c [H1 H2]].
  rewrite H1, H2. destruct c; simpl; auto.
Qed.

Lemma ltb_negb_leb (x y : float) :
  is_nan x = false -> is_nan y = false -> (x <? y) = negb (y <=? x).
Proof.
  intros Hx Hy. rewrite ltb_spec, leb_spec. unfold SFltb, SFleb.
  destruct (SFcompare_antisym _ _ (Prim2SF_not_nan x Hx) (Prim2SF_not_nan y Hy))
    as [c [H1 H2]].
  rewrite H1, H2. destruct c; reflexivity.
Qed.

Lemma leb_antisym_eqb (x y : float) :
  (x <=? y) = true -> (y <=? x) = true -> (x =? y) = true.
Proof.
  rewrite !leb_spec, eqb_spec. unfold SFleb, SFeqb.
  destruct (Prim2SF x) as [sx|sx| |sx mx ex] eqn:Ex;
    try (simpl; discriminate);
    destruct (Prim2SF y) as [sy|sy| |sy my ey] eqn:Ey;
    try (simpl; discriminate).
  all: match goal with
       | |- context [SFcompare ?a ?b] =>
         let H := fresh in
         assert (H : a <> S754_nan) by discriminate;
         let H' := fresh in
         assert (H' : b <> S754_nan) by discriminate;
         destruct (SFcompare_antisym a b H H') as [c [H1 H2]];
         rewrite H1, H2; destruct c; simpl; congruence
       end.
Qed.

Lemma leb_nan_r (a x : float) : is_nan x = true -> (a <=? x) = false.
Proof.
  intros H. rewrite leb_spec, (Prim2SF_nan x H). unfold SFleb.
  destruct (Prim2SF a); reflexivity.
Qed.

Lemma leb_nan_l (a x : float) : is_nan x = true -> (x <=? a) = false.
Proof.
  intros H. rewrite leb_spec, (Prim2SF_nan x H). reflexivity.
Qed.

Lemma leb_true_not_nan (x y : float) :
  (x <=? y) = true -> is_nan x = false /\ is_nan y = false.
Proof.
  intros H. split.
  - destruct (is_nan x) eqn:E; [|reflexivity].
    rewrite (leb_nan_l y x E) in H. discriminate.
  - destruct (is_nan y) eqn:E; [|reflexivity].
    rewrite (leb_nan_r x y E) in H. discriminate.
Qed.

Lemma eqb_leb (x y : float) : (x =? y) = true -> (x <=? y) = true.
Proof.
  rewrite eqb_spec, leb_spec. unfold SFeqb, SFleb.
  destruct (SFcompare (Prim2SF x) (Prim2SF y)) as [[| |]|]; congruence.
Qed.

Lemma ltb_leb (x y : float) : (x <? y) = true -> (x <=? y) = true.
Proof.
  rewrite ltb_spec, leb_spec. unfold SFltb, SFleb.
  destruct (SFcompare (Prim2SF x) (Prim2SF y)) as [[| |]|]; congruence.
Qed.

Lemma SFleb_trans (x y z : spec_float) :
  SFleb x y = true -> SFleb y z = true -> SFleb x z = true.
Proof.
  unfold SFleb.
  destruct x as [sx|sx| |sx mx ex], y as [sy|sy| |sy my ey], z as [sz|sz| |sz mz ez];
    simpl; try discriminate; try reflexivity;
    try (destruct sx; try discriminate; try reflexivity);
    try (destruct sy; try discriminate; try reflexivity);
    try (destruct sz; try discriminate; try reflexivity).
  all: change (Pos.compare_cont Eq) with Pos.compare.
  all: destruct (Z.compare_spec ex ey), (Z.compare_spec ey ez), (Z.compare_spec ex ez);
    try discriminate; try reflexivity; try lia; subst.
  all: destruct (Pos.compare_spec mx my), (Pos.compare_spec my mz), (Pos.compare_spec mx mz);
    simpl; try discriminate; try reflexivity; try lia.
Qed.

Lemma leb_trans (x y z : float) :
  (x <=? y) = true -> (y <=? z) = true -> (x <=? z) = true.
Proof. rewrite !leb_spec. apply SFleb_trans. Qed.

Lemma ltb_true_not_nan (x y : float) :
  (x <? y) = true -> is_nan x = false /\ is_nan y = false.
Proof. intros H. apply leb_true_not_nan, ltb_leb, H. Qed.

Lemma leb_above_false (a b m : float) :
  (m <? a) = true -> (a <=? b) = true -> (b <=? m) = false.
Proof.
  intros Hm Hab. destruct (b <=? m) eqn:E; [|reflexivity].
  destruct (ltb_true_not_nan _ _ Hm) as [Hnm Hna].
  rewrite (ltb_negb_leb m a Hnm Hna) in Hm.
  rewrite (leb_trans a b m Hab E) in Hm. discriminate.
Qed.

(** *** Sort kinds *)

Lemma insert_before_perm {A : Type} (le : A -> A -> bool) (x : A) (l : list A) :
  Permutation (x :: l) (insert_before le x l).
Proof.
  induction l as [|y l IH]; simpl.
  - apply Permutation_refl.
  - destruct (le x y).
    + apply Permutation_refl.
    + eapply perm_trans; [apply perm_swap|]. apply perm_skip, IH.
Qed.

Lemma insert_after_perm {A : Type} (le : A -> A -> bool) (x : A) (l : list A) :
  Permutation (x :: l) (insert_after le x l).
Proof.
  induction l as [|y l IH]; simpl.
  - apply Permutation_refl.
  - destruct (le y x).
    + eapply perm_trans; [apply perm_swap|]. apply perm_skip, IH.
    + apply Permutation_refl.
Qed.

Lemma insert_before_sorted {A : Type} (le : A -> A -> bool) (x : A) (l : list A) :
  (forall y, In y l -> le x y = true \/ le y x = true) ->
  Sorted (fun a b => le a b = true) l ->
  Sorted (fun a b => le a b = true) (insert_before le x l).
Proof.
  intros Htot Hs. induction l as [|y l IH]; simpl.
  - repeat constructor.
  - destruct (le x y) eqn:E.
    + constructor; [assumption|]. constructor. exact E.
    + inversion Hs as [|? ? Hs' Hd]; subst.
      constructor.
      * apply IH; [|assumption]. intros z Hz. apply Htot. right. exact Hz.
      * destruct l as [|z l]; simpl.
        -- constructor. destruct (Htot y (or_introl eq_refl)); congruence.
        -- destruct (le x z).
           ++ constructor. destruct (Htot y (or_introl eq_refl)); congruence.
           ++ inversion Hd; subst. constructor. assumption.
Qed.

Lemma insert_after_sorted {A : Type} (le : A -> A -> bool) (x : A) (l : list A) :
  (forall y, In y l -> le x y = true \/ le y x = true) ->
  Sorted (fun a b => le a b = true) l ->
  Sorted (fun a b => le a b = true) (insert_after le x l).
Proof.
  intros Htot Hs. induction l as [|y l IH]; simpl.
  - repeat constructor.
  - destruct (le y x) eqn:E.
    + inversion Hs as [|? ? Hs' Hd]; subst.
      constructor.
      * apply IH; [|assumption]. intros z Hz. apply Htot. right. exact Hz.
      * destruct l as [|z l]; simpl.
        -- constructor. exact E.
        -- destruct (le z x).
           ++ inversion Hd; subst. constructor. assumption.
           ++ constructor. exact E.
    + constructor; [assumption|]. constructor.
      destruct (Htot y (or_introl eq_refl)); congruence.
Qed.

Lemma stable_kind_sorts : sorts stable_kind.
Proof.
  intros A le l. unfold sort_asc, stable_kind. split.
  - induction l as [|x l IH]; simpl; [constructor|].
    eapply perm_trans; [apply perm_skip, IH|]. apply insert_before_perm.
  - induction l as [|x l IH]; intros Htot; simpl; [constructor|].
    assert (Hp : Permutation l (fold_right (insert_before le) [] l)).
    { clear. induction l as [|x l IH]; simpl; [constructor|].
      eapply perm_trans; [apply perm_skip, IH|]. apply insert_before_perm. }
    apply insert_before_sorted.
    + intros y Hy. apply Htot; [left; reflexivity|right].
      eapply Permutation_in; [apply Permutation_sym, Hp|exact Hy].
    + apply IH. intros a b Ha Hb. apply Htot; right; assumption.
Qed.

Lemma tie_reversing_kind_sorts : sorts tie_reversing_kind.
Proof.
  intros A le l. unfold sort_asc, tie_reversing_kind. split.
  - induction l as [|x l IH]; simpl; [constructor|].
    eapply perm_trans; [apply perm_skip, IH|]. apply insert_after_perm.
  - induction l as [|x l IH]; intros Htot; simpl; [constructor|].
    assert (Hp : Permutation l (fold_right (insert_after le) [] l)).
    { clear. induction l as [|x l IH]; simpl; [constructor|].
      eapply perm_trans; [apply perm_skip, IH|]. apply insert_after_perm. }
    apply insert_after_sorted.
    + intros y Hy. apply Htot; [left; reflexivity|right].
      eapply Permutation_in; [apply Permutation_sym, Hp|exact Hy].
    + apply IH. intros a b Ha Hb. apply Htot; right; assumption.
Qed.

(** *** sort_values *)

Lemma filter_split_perm {A : Type} (p : A -> bool) (l : list A) :
  Permutation l (filter p l ++ filter (fun x => negb (p x)) l).
Proof.
  induction l as [|x l IH]; simpl; [constructor|].
  destruct (p x); simpl.
  - apply perm_skip, IH.
  - apply Permutation_cons_app, IH.
Qed.

Lemma Sorted_snoc {A : Type} (R : A -> A -> Prop) (l : list A) (x : A) :
  Sorted R l -> (forall y, In y (firstn 1 (rev l)) -> R y x) -> Sorted R (l ++ [x]).
Proof.
  induction l as [|a l IH]; intros Hs Hlast; simpl.
  - repeat constructor.
  - inversion Hs as [|? ? Hs' Hd]; subst. constructor.
    + apply IH; [assumption|]. intros y Hy. apply Hlast. simpl.
      destruct l as [|b l]; [destruct Hy|].
      simpl in Hy |- *. destruct (rev l ++ [b]) eqn:E.
      * destruct (rev l); discriminate.
      * simpl in Hy |- *. exact Hy.
    + destruct l as [|b l]; simpl.
      * constructor. apply Hlast. simpl. left. reflexivity.
      * inversion Hd; subst. constructor. assumption.
Qed.

Lemma Sorted_rev {A : Type} (R : A -> A -> Prop) (l : list A) :
  Sorted R l -> Sorted (fun a b => R b a) (rev l).
Proof.
  induction l as [|a l IH]; intros Hs; simpl; [constructor|].
  inversion Hs as [|? ? Hs' Hd]; subst.
  apply Sorted_snoc; [apply IH, Hs'|].
  rewrite rev_involutive. intros y Hy.
  destruct l as [|b l]; [destruct Hy|].
  simpl in Hy. destruct Hy as [<-|[]]. inversion Hd; subst. assumption.
Qed.

Section SortValuesFacts.
Context {kind : SortKind}.
Hypothesis Hkind : sorts kind.
Context {R K : Type}.
Variable key : R -> option K.
Variable le : K -> K -> bool.

Lemma sort_values_desc_perm (df : list R) :
  Permutation df (sort_values_desc key le df).
Proof.
  unfold sort_values_desc, non_nulls_sorted.
  eapply perm_trans; [apply (filter_split_perm (notna key))|].
  apply Permutation_app; [|apply Permutation_refl].
  eapply perm_trans; [apply Permutation_rev|].
  eapply perm_trans; [apply (proj1 (Hkind R (le_key key le) _))|].
  apply Permutation_rev.
Qed.

Lemma sort_values_desc_length (df : list R) :
  List.length (sort_values_desc key le df) = List.length df.
Proof. symmetry. apply Permutation_length, sort_values_desc_perm. Qed.

Lemma sort_values_desc_in (df : list R) (r : R) :
  In r (sort_values_desc key le df) <-> In r df.
Proof.
  split; apply Permutation_in;
    [apply Permutation_sym|]; apply sort_values_desc_perm.
Qed.

Lemma sort_values_desc_nulls_last (df : list R) :
  sort_values_desc key le df = non_nulls_sorted key le df ++ filter (isna key) df.
Proof. reflexivity. Qed.

Lemma non_nulls_sorted_perm (df : list R) :
  Permutation (filter (notna key) df) (non_nulls_sorted key le df).
Proof.
  unfold non_nulls_sorted.
  eapply perm_trans; [apply Permutation_rev|].
  eapply perm_trans; [apply (proj1 (Hkind R (le_key key le) _))|].
  apply Permutation_rev.
Qed.

Lemma non_nulls_sorted_notna (df : list R) :
  Forall (fun r => notna key r = true) (non_nulls_sorted key le df).
Proof.
  apply Forall_forall. intros r Hr.
  apply (Permutation_in _ (Permutation_sym (non_nulls_sorted_perm df))) in Hr.
  apply filter_In in Hr. tauto.
Qed.

Hypothesis le_total : forall (r1 r2 : R) (a b : K),
  key r1 = Some a -> key r2 = Some b -> le a b = true \/ le b a = true.

Lemma non_nulls_sorted_desc (df : list R) :
  Sorted (fun a b => le_key key le b a = true) (non_nulls_sorted key le df).
Proof.
  unfold non_nulls_sorted. apply Sorted_rev.
  apply (proj2 (Hkind R (le_key key le) _)).
  intros x y _ _. unfold le_key.
  destruct (key x) eqn:Ex, (key y) eqn:Ey; eauto.
Qed.
End SortValuesFacts.


(** X3: whatever it receives, [clasificacion_richter] answers one of the
    nine tiers. *)
Lemma clasificacion_richter_in_tiers (mag : pyobj) :
  In (clasificacion_richter mag) tiers.
Proof.
  unfold clasificacion_richter, tiers.
  destruct mag as [|f|s]; simpl.
  - intuition.
  - destruct (is_nan f); [intuition|].
    repeat match goal with
           | |- context [if ?b then _ else _] => destruct b
           end; simpl; intuition.
  - intuition.
Qed.

(** X4: at the boundaries the table names, the classification is the one of
    the table. *)
Lemma clasificacion_richter_boundaries :
  clasificacion_richter (PyFloat 3.9) = "menor" /\
  clasificacion_richter (PyFloat 4.0) = "ligero" /\
  clasificacion_richter (PyFloat 9.9) = "épico" /\
  clasificacion_richter (PyFloat 10.0) = "legendario" /\
  clasificacion_richter PyNone = "desconocida" /\
  clasificacion_richter (PyFloat nan) = "desconocida" /\
  clasificacion_richter (PyOther "n/d") = "desconocida".
Proof. repeat split; vm_compute; reflexivity. Qed.

Lemma clasificacion_richter_gaps :
  map (fun m => clasificacion_richter (PyFloat m)) [3.95; 4.95; 5.95; 6.95; 7.95; 9.95]
  = ["legendario"; "legendario"; "legendario"; "legendario"; "legendario"; "legendario"].
Proof. vm_compute. reflexivity. Qed.

(** X6: every magnitude strictly between 3.9 and 4 is labelled "legendario". *)
Lemma clasificacion_richter_gap_3_9_to_4 (m : float) :
  (3.9 <? m) = true -> (m <? 4) = true ->
  clasificacion_richter (PyFloat m) = "legendario".
Proof.
  intros Hlo Hhi.
  destruct (ltb_true_not_nan _ _ Hhi) as [Hnm _].
  unfold clasificacion_richter, pd_isna, py_float. rewrite Hnm.
  assert (H2 : (m <? 2) = false).
  { rewrite (ltb_negb_leb m 2 Hnm eq_refl).
    rewrite (leb_trans 2 3.9 m eq_refl (ltb_leb _ _ Hlo)). reflexivity. }
  assert (H39 : (m <=? 3.9) = false).
  { rewrite (ltb_negb_leb 3.9 m eq_refl Hnm) in Hlo.
    destruct (m <=? 3.9); [discriminate|reflexivity]. }
  rewrite H2, H39, andb_false_r.
  rewrite (leb_above_false 4 4 m Hhi eq_refl).
  rewrite (leb_above_false 4 5 m Hhi eq_refl).
  rewrite (leb_above_false 4 6 m Hhi eq_refl).
  rewrite (leb_above_false 4 7 m Hhi eq_refl).
  rewrite (leb_above_false 4 8 m Hhi eq_refl).
  reflexivity.
Qed.

Lemma clasificacion_richter_gap_3_9_to_4_witness :
  (3.9 <? 3.95) = true /\ (3.95 <? 4) = true /\
  clasificacion_richter (PyFloat 3.95) = "legendario".
Proof.
  split; [reflexivity|]. split; [reflexivity|].
  exact (clasificacion_richter_gap_3_9_to_4 3.95 eq_refl eq_refl).
Defined.

(** C1: the classification is not continuous between adjacent tiers.  A
    magnitude of 3.95 lies strictly between 3.9 and 4, passes none of the
    closed-interval tests and falls through to the last [return]: the code
    answers "legendario", which is neither of the two tiers ("menor",
    "ligero") that meet between 3.9 and 4. *)
Theorem C1_gap_3_95_is_legendario :
  (3.9 <? 3.95) = true /\ (3.95 <? 4) = true /\
  clasificacion_richter (PyFloat 3.95) = "legendario" /\
  clasificacion_richter (PyFloat 3.95) <> "menor" /\
  clasificacion_richter (PyFloat 3.95) <> "ligero".
Proof.
  repeat split; try (vm_compute; reflexivity); vm_compute; discriminate.
Qed.

(** *** The table before and after the sort *)

Lemma magnitud_size_col_map (mags : list float) :
  magnitud_size_col mags =
  map (fun m => if forallb (fun x => x =? 0)
                     (map (fun m => Pandas.fillna 0 (Pandas.clip_lower 0 m)) mags)
                then 0.1 else Pandas.fillna 0 (Pandas.clip_lower 0 m)) mags.
Proof.
  unfold magnitud_size_col.
  destruct (forallb _ _); [apply map_map|reflexivity].
Qed.

Lemma combine_map_r {A B : Type} (f : A -> B) (l : list A) :
  combine l (map f l) = map (fun x => (x, f x)) l.
Proof. induction l as [|x l IH]; simpl; [reflexivity|]. now rewrite IH. Qed.

(** Each event of the feed gives one row, whose size cell depends on the
    whole column only through the all-zero test. *)
Lemma tabla_sin_ordenar_map (feed : list RawEvent) :
  tabla_sin_ordenar feed =
  map (fun e => fila_de e
         (if forallb (fun x => x =? 0)
               (map (fun m => Pandas.fillna 0 (Pandas.clip_lower 0 m)) (magnitudes feed))
          then 0.1
          else Pandas.fillna 0 (Pandas.clip_lower 0 (Pandas.to_numeric (ev_mag e)))))
      feed.
Proof.
  unfold tabla_sin_ordenar. fold (magnitudes feed).
  rewrite magnitud_size_col_map. unfold magnitudes at 2.
  rewrite map_map, combine_map_r, map_map. reflexivity.
Qed.

Lemma magnitud_size_col_length (mags : list float) :
  List.length (magnitud_size_col mags) = List.length mags.
Proof. rewrite magnitud_size_col_map. apply length_map. Qed.

Lemma tabla_sin_ordenar_length (feed : list RawEvent) :
  List.length (tabla_sin_ordenar feed) = List.length feed.
Proof. rewrite tabla_sin_ordenar_map. apply length_map. Qed.

Lemma Zleb_total_keys (r1 r2 : Fila) (a b : Z) :
  time_utc r1 = Some a -> time_utc r2 = Some b ->
  Z.leb a b = true \/ Z.leb b a = true.
Proof. intros _ _. destruct (Z.leb_spec a b); [left; reflexivity|right; apply Z.leb_le; lia]. Qed.

Lemma le_key_no_posterior (a b : Fila) :
  le_key time_utc Z.leb b a = true -> no_posterior a b.
Proof.
  unfold le_key, no_posterior.
  destruct (time_utc a), (time_utc b); auto.
  intros H. apply Z.leb_le. exact H.
Qed.

Lemma Sorted_impl {A : Type} (P Q : A -> A -> Prop) (l : list A) :
  (forall a b, P a b -> Q a b) -> Sorted P l -> Sorted Q l.
Proof.
  intros HPQ. induction 1 as [|a l Hs IH Hd]; constructor; [assumption|].
  destruct Hd; constructor. auto.
Qed.

(** C2, for every sort kind: [generaTabla] returns the rows of
    the frame with the non-null times first, from the most recent to the
    oldest, followed by the rows of null time in their original order. *)
Theorem C2_time_utc_desc_nulls_last
    (kind : SortKind) (Hkind : sorts kind)
    (QuakeFeed : string -> string -> list RawEvent) (severidad periodo : string) :
  desc_nulls_last (tabla_sin_ordenar (QuakeFeed severidad periodo))
                  (generaTabla QuakeFeed severidad periodo).
Proof.
  unfold desc_nulls_last, generaTabla.
  set (df := tabla_sin_ordenar (QuakeFeed severidad periodo)).
  split; [apply sort_values_desc_perm, Hkind|].
  exists (non_nulls_sorted time_utc Z.leb df). split; [reflexivity|]. split.
  - eapply Forall_impl; [|apply non_nulls_sorted_notna, Hkind].
    intros r Hr. unfold notna in Hr. destruct (time_utc r); congruence.
  - eapply Sorted_impl; [apply le_key_no_posterior|].
    apply non_nulls_sorted_desc; [exact Hkind|apply Zleb_total_keys].
Qed.

Lemma C2_time_utc_desc_nulls_last_witness :
  sorts stable_kind /\
  desc_nulls_last (tabla_sin_ordenar feed_empate)
                  (@generaTabla stable_kind (fun _ _ => feed_empate) "all" "month").
Proof.
  split; [exact stable_kind_sorts|].
  exact (C2_time_utc_desc_nulls_last stable_kind stable_kind_sorts
           (fun _ _ => feed_empate) "all" "month").
Defined.

(** *** numpy's quicksort at work *)

(** Forty values in no order come out sorted. *)
Lemma argsort_sorts_example :
  let v := map (fun i => (i * 7) mod 41)%nat (seq 0 40) in
  Numpy.take v (Numpy.argsort Nat.ltb v)
  = filter (fun k => negb (Nat.eqb k 34)) (seq 0 41).
Proof. vm_compute. reflexivity. Qed.

(** Seventeen equal values stay where they are; of eighteen, those on
    either side of the middle change places. *)
Lemma argsort_equal_values :
  Numpy.argsort Z.ltb (repeat 7%Z 17) = seq 0 17 /\
  Numpy.argsort Z.ltb (repeat 7%Z 18)
  = [0; 15; 14; 13; 12; 11; 10; 9; 8; 7; 6; 5; 4; 3; 2; 1; 16; 17]%nat.
Proof. split; vm_compute; reflexivity. Qed.

(** A rearrangement of a list written out in full. *)
Ltac split_at x l acc k :=
  lazymatch l with
  | x :: ?t => k acc t
  | ?y :: ?t => split_at x t (acc ++ [y]) k
  end.

Ltac perm_explicit :=
  repeat lazymatch goal with
  | |- Permutation [] [] => apply perm_nil
  | |- Permutation (?x :: ?l) ?l' =>
    split_at x l' (@nil Fila)
      ltac:(fun acc t => apply (Permutation_cons_app acc t x); cbn [app])
  end.

(** C2, order of ties: the sort of the script does not keep the order of the
    rows of equal [time_utc].  The eighteen events of [feed_enjambre] share
    one instant.  numpy's quicksort splits a range of eighteen positions
    once before it sorts by insertion, and the split exchanges the positions
    on either side of the middle although their values are equal: the table
    lists the events as 0, 1, 16, 15, ..., 2, 17.  It is still a
    rearrangement of the frame in descending order of time. *)
Lemma C2_quicksort_reorders_equal_times :
  map time_utc (tabla_sin_ordenar feed_enjambre) = repeat (Some 7%Z) 18 /\
  map localizacion (tabla_sin_ordenar feed_enjambre)
    = ["0"; "1"; "2"; "3"; "4"; "5"; "6"; "7"; "8"; "9"; "10"; "11"; "12";
       "13"; "14"; "15"; "16"; "17"] /\
  map localizacion
      (@generaTabla numpy_quicksort_kind (fun _ _ => feed_enjambre) "all" "month")
    = ["0"; "1"; "16"; "15"; "14"; "13"; "12"; "11"; "10"; "9"; "8"; "7";
       "6"; "5"; "4"; "3"; "2"; "17"] /\
  desc_nulls_last
    (tabla_sin_ordenar feed_enjambre)
    (@generaTabla numpy_quicksort_kind (fun _ _ => feed_enjambre) "all" "month") /\
  ~ keeps_order_of_ties
      (tabla_sin_ordenar feed_enjambre)
      (@generaTabla numpy_quicksort_kind (fun _ _ => feed_enjambre) "all" "month").
Proof.
  split; [vm_compute; reflexivity|].
  split; [vm_compute; reflexivity|].
  split; [vm_compute; reflexivity|].
  split.
  - split; [vm_compute; perm_explicit|].
    exists (@generaTabla numpy_quicksort_kind (fun _ _ => feed_enjambre) "all" "month").
    split; [vm_compute; reflexivity|].
    split; vm_compute; repeat constructor; discriminate.
  - intros H. specialize (H (Some 7%Z)).
    apply (f_equal (map localizacion)) in H.
    vm_compute in H. discriminate H.
Qed.

Lemma filter_filter_impl {A : Type} (p q : A -> bool) (l : list A) :
  (forall a, p a = true -> q a = true) -> filter p (filter q l) = filter p l.
Proof.
  intros Hpq. induction l as [|x l IH]; simpl; [reflexivity|].
  destruct (q x) eqn:Eq; simpl; rewrite IH; [reflexivity|].
  destruct (p x) eqn:Ep; [|reflexivity].
  rewrite (Hpq x Ep) in Eq. discriminate.
Qed.

(** *** Small tables: numpy sorts them by insertion *)

Lemma list_snoc_cases {A : Type} (l : list A) :
  l = [] \/ exists l' a, l = l' ++ [a].
Proof. induction l using rev_ind; [left; reflexivity|right; eauto]. Qed.

Lemma set_nat_app (p : list nat) (h : nat) (s : list nat) (x : nat) :
  Numpy.set_nat (p ++ h :: s) (List.length p) x = p ++ x :: s.
Proof. induction p as [|y p IH]; simpl; [reflexivity|]. now rewrite IH. Qed.

Lemma set_app (p : list nat) (h : nat) (s : list nat) (x : nat) :
  Numpy.set (p ++ h :: s) (Z.of_nat (List.length p)) x = p ++ x :: s.
Proof.
  unfold Numpy.set.
  destruct (Z.ltb_spec (Z.of_nat (List.length p)) 0) as [H|H]; [lia|].
  rewrite Nat2Z.id. apply set_nat_app.
Qed.

Lemma get_app (p : list nat) (h : nat) (s : list nat) :
  Numpy.get (p ++ h :: s) (Z.of_nat (List.length p)) = h.
Proof. unfold Numpy.get. rewrite Nat2Z.id. apply nth_middle. Qed.

Lemma insert_from_right_length (lt : nat -> nat -> bool) (x : nat) (r : list nat) :
  List.length (insert_from_right lt x r) = S (List.length r).
Proof.
  induction r as [|y r IH]; simpl; [reflexivity|].
  destruct (lt x y); simpl; [now rewrite IH|reflexivity].
Qed.

Section NumpySmall.
Context {A : Type}.
Variable less : A -> A -> bool.
Variable v : list A.

(** The inner loop of the insertion sort: the positions before [pj] are [p],
    the one at [pj] is free, and [x] goes down from there. *)
Lemma insertion_shift_spec (fuel : nat) :
  forall (p : list nat) (h : nat) (s : list nat) (x : nat),
    (List.length p <= fuel)%nat ->
    Numpy.insertion_shift less v fuel (p ++ h :: s) 0 (Z.of_nat (List.length p)) x
    = rev (insert_from_right (Numpy.less_at less v) x (rev p)) ++ s.
Proof.
  induction fuel as [|fuel IH]; intros p h s x Hlen.
  - destruct p as [|y p]; [|simpl in Hlen; lia]. reflexivity.
  - destruct (list_snoc_cases p) as [->|[p' [y ->]]].
    + reflexivity.
    + cbn [Numpy.insertion_shift].
      replace (Z.of_nat (List.length (p' ++ [y])) >? 0)%Z with true
        by (rewrite length_app; simpl; symmetry; apply Z.gtb_lt; lia).
      replace (Z.of_nat (List.length (p' ++ [y])) - 1)%Z
        with (Z.of_nat (List.length p'))
        by (rewrite length_app; simpl; lia).
      rewrite <- (app_assoc p' [y] (h :: s)). cbn [app].
      rewrite get_app, rev_app_distr. cbn [rev app insert_from_right andb].
      destruct (Numpy.less_at less v x y) eqn:E.
      * replace (Numpy.set (p' ++ y :: h :: s) (Z.of_nat (List.length (p' ++ [y]))) y)
          with (p' ++ y :: y :: s).
        -- rewrite IH by (rewrite length_app in Hlen; simpl in Hlen; lia).
           cbn [rev]. rewrite <- app_assoc. reflexivity.
        -- replace (p' ++ y :: h :: s) with ((p' ++ [y]) ++ h :: s)
             by (rewrite <- app_assoc; reflexivity).
           rewrite set_app, <- app_assoc. reflexivity.
      * replace (p' ++ y :: h :: s) with ((p' ++ [y]) ++ h :: s)
          by (rewrite <- app_assoc; reflexivity).
        rewrite set_app. cbn [rev].
        rewrite rev_involutive, <- !app_assoc. reflexivity.
Qed.

(** The outer loop, from a sorted range [r] (held from right to left) of
    [S k] positions followed by the positions still to enter. *)
Lemma insertion_steps_spec (m : nat) :
  forall (k : nat) (r : list nat),
    List.length r = S k ->
    fold_left
      (fun tosort j =>
         Numpy.insertion_shift less v (List.length tosort) tosort 0
           (0 + 1 + Z.of_nat j)%Z (Numpy.get tosort (0 + 1 + Z.of_nat j)%Z))
      (seq k m) (rev r ++ seq (S k) m)
    = rev (fold_left (fun r x => insert_from_right (Numpy.less_at less v) x r)
                     (seq (S k) m) r).
Proof.
  induction m as [|m IH]; intros k r Hr.
  - simpl. apply app_nil_r.
  - cbn [seq fold_left].
    replace (0 + 1 + Z.of_nat k)%Z with (Z.of_nat (List.length (rev r)))
      by (rewrite length_rev, Hr; lia).
    rewrite get_app, insertion_shift_spec
      by (rewrite length_app; lia).
    rewrite rev_involutive.
    apply IH. rewrite insert_from_right_length, Hr. reflexivity.
Qed.

Lemma insertion_sort_spec (n : nat) :
  Numpy.insertion_sort less v (seq 0 n) 0 (Z.of_nat n - 1)
  = rev (fold_left (fun r x => insert_from_right (Numpy.less_at less v) x r)
                   (seq 0 n) []).
Proof.
  unfold Numpy.insertion_sort.
  destruct n as [|n]; [reflexivity|].
  replace (Z.to_nat (Z.of_nat (S n) - 1 - 0)) with n by lia.
  cbn [seq fold_left insert_from_right].
  apply (insertion_steps_spec n 0 [0%nat]). reflexivity.
Qed.

(** An array of at most seventeen values is never split. *)
Lemma argsort_small :
  (List.length v <= 17)%nat ->
  Numpy.argsort less v
  = rev (fold_left (fun r x => insert_from_right (Numpy.less_at less v) x r)
                   (seq 0 (List.length v)) []).
Proof.
  intros Hn. unfold Numpy.argsort.
  replace (4 * List.length v + 4)%nat with (S (4 * List.length v + 3)) by lia.
  cbn [Numpy.aquicksort_loop negb andb].
  replace (Numpy.npy_get_msb (Z.of_nat (List.length v)) * 2 <? 0)%Z with false.
  - replace (Z.of_nat (List.length v) - 1 - 0 >? Numpy.SMALL_QUICKSORT)%Z with false.
    + apply insertion_sort_spec.
    + symmetry. rewrite Z.gtb_ltb. apply Z.ltb_ge. unfold Numpy.SMALL_QUICKSORT. lia.
  - symmetry. apply Z.ltb_ge. unfold Numpy.npy_get_msb.
    destruct (Z.leb_spec (Z.of_nat (List.length v)) 0); [lia|].
    pose proof (Z.log2_nonneg (Z.of_nat (List.length v))). lia.
Qed.

(** Insertion from the right keeps the order of the positions selected by
    [q] when no two of them hold values of which one is less than the
    other. *)
Variable q : nat -> bool.
Hypothesis q_ties : forall i j, q i = true -> q j = true -> Numpy.less_at less v i j = false.

Lemma insert_from_right_filter (x : nat) (r : list nat) :
  filter q (insert_from_right (Numpy.less_at less v) x r) = filter q (x :: r).
Proof.
  induction r as [|y r IH]; [reflexivity|].
  cbn [insert_from_right]. destruct (Numpy.less_at less v x y) eqn:E; [|reflexivity].
  cbn [filter] in *. rewrite IH.
  destruct (q x) eqn:Ex, (q y) eqn:Ey; try reflexivity.
  rewrite (q_ties x y Ex Ey) in E. discriminate.
Qed.

Lemma insertion_fold_filter (l r : list nat) :
  filter q (fold_left (fun r x => insert_from_right (Numpy.less_at less v) x r) l r)
  = rev (filter q l) ++ filter q r.
Proof.
  revert r. induction l as [|x l IH]; intros r; [reflexivity|].
  cbn [fold_left]. rewrite IH, insert_from_right_filter.
  cbn [filter]. destruct (q x); [|reflexivity].
  cbn [rev]. rewrite <- app_assoc. reflexivity.
Qed.

Lemma argsort_small_filter :
  (List.length v <= 17)%nat ->
  filter q (Numpy.argsort less v) = filter q (seq 0 (List.length v)).
Proof.
  intros Hn. rewrite argsort_small by exact Hn.
  rewrite filter_rev, insertion_fold_filter, app_nil_r. apply rev_involutive.
Qed.
End NumpySmall.

Lemma take_filter {A : Type} (v : list A) (p : A -> bool) (idx : list nat) :
  filter p (Numpy.take v idx)
  = Numpy.take v (filter (fun i => match nth_error v i with
                                   | Some x => p x
                                   | None => false
                                   end) idx).
Proof.
  unfold Numpy.take. induction idx as [|i idx IH]; [reflexivity|].
  cbn [flat_map filter]. destruct (nth_error v i) as [x|] eqn:E.
  - cbn [app filter]. rewrite IH. destruct (p x); [|reflexivity].
    cbn [flat_map]. rewrite E. reflexivity.
  - cbn [app]. exact IH.
Qed.

Lemma take_seq {A : Type} (v : list A) (k : nat) (pre : list A) :
  Numpy.take (pre ++ v) (seq (List.length pre) (List.length v)) = v.
Proof.
  revert pre. induction v as [|x v IH]; intros pre; [reflexivity|].
  cbn [List.length seq]. unfold Numpy.take in *. cbn [flat_map].
  rewrite nth_error_app2, Nat.sub_diag by lia. cbn [nth_error app].
  f_equal.
  specialize (IH (pre ++ [x])). rewrite <- app_assoc, length_app in IH.
  cbn [app List.length] in IH. rewrite Nat.add_1_r in IH. exact IH.
Qed.

(** numpy's quicksort leaves the rows selected by [p] in their order when
    [p] selects rows of one key and the list has at most seventeen rows. *)
Lemma numpy_quicksort_kind_filter {A : Type} (le : A -> A -> bool) (p : A -> bool)
    (l : list A) :
  (List.length l <= 17)%nat ->
  (forall a b, p a = true -> p b = true -> le a b = true) ->
  filter p (sort_asc (SortKind := numpy_quicksort_kind) A le l) = filter p l.
Proof.
  intros Hn Hp. unfold sort_asc, numpy_quicksort_kind.
  rewrite take_filter, argsort_small_filter.
  - rewrite <- take_filter. f_equal. apply (take_seq l 0 []).
  - intros i j Hi Hj. unfold Numpy.less_at.
    destruct (nth_error l i) as [x|]; [|discriminate].
    destruct (nth_error l j) as [y|]; [|discriminate].
    rewrite (Hp y x Hj Hi). reflexivity.
  - exact Hn.
Qed.

Lemma filter_none {A : Type} (p q : A -> bool) (l : list A) :
  (forall a, p a = true -> q a = false) -> filter p (filter q l) = [].
Proof.
  intros Hpq. induction l as [|x l IH]; simpl; [reflexivity|].
  destruct (q x) eqn:Eq; simpl; [|exact IH].
  destruct (p x) eqn:Ep; [|exact IH].
  rewrite (Hpq x Ep) in Eq. discriminate.
Qed.

(** X1: when at most seventeen events of the feed have a time, the table
    lists the events of equal [time_utc], and those of null [time_utc], in
    the order of the feed: numpy's quicksort sorts so few values by
    insertion, which exchanges no two equal values. *)
Theorem small_feed_keeps_order_of_ties
    (QuakeFeed : string -> string -> list RawEvent) (severidad periodo : string) :
  (List.length (filter (notna time_utc)
                       (tabla_sin_ordenar (QuakeFeed severidad periodo))) <= 17)%nat ->
  keeps_order_of_ties
    (tabla_sin_ordenar (QuakeFeed severidad periodo))
    (@generaTabla numpy_quicksort_kind QuakeFeed severidad periodo).
Proof.
  intros Hn t. unfold generaTabla.
  set (df := tabla_sin_ordenar (QuakeFeed severidad periodo)) in *.
  assert (Hlen : (List.length (rev (filter (notna time_utc) df)) <= 17)%nat)
    by (rewrite length_rev; exact Hn).
  unfold sort_values_desc, non_nulls_sorted.
  rewrite filter_app, filter_rev.
  destruct t as [t|].
  - rewrite numpy_quicksort_kind_filter.
    + rewrite filter_rev, rev_involutive.
      rewrite filter_filter_impl, filter_none.
      * apply app_nil_r.
      * intros a. unfold mismo_time_utc, isna, notna. destruct (time_utc a); [reflexivity|discriminate].
      * intros a. unfold mismo_time_utc, notna. destruct (time_utc a); [reflexivity|discriminate].
    + exact Hlen.
    + intros a b. unfold mismo_time_utc, le_key.
      destruct (time_utc a), (time_utc b); try discriminate.
      intros Ha Hb. apply Z.eqb_eq in Ha, Hb. subst. apply Z.leb_refl.
  - rewrite numpy_quicksort_kind_filter.
    + rewrite filter_rev, rev_involutive.
      rewrite filter_none.
      * simpl. apply filter_filter_impl.
        intros a. unfold mismo_time_utc, isna, notna. destruct (time_utc a); [discriminate|reflexivity].
      * intros a. unfold mismo_time_utc, notna. destruct (time_utc a); [discriminate|reflexivity].
    + exact Hlen.
    + intros a b. unfold mismo_time_utc, le_key.
      destruct (time_utc a), (time_utc b); try discriminate. reflexivity.
Qed.

(** The three events of [feed_empate]: "a" and "b", of one instant, stay in
    the order of the feed, before "c", which has no time. *)
Lemma small_feed_keeps_order_of_ties_witness :
  (List.length (filter (notna time_utc) (tabla_sin_ordenar feed_empate)) <= 17)%nat /\
  map localizacion
      (@generaTabla numpy_quicksort_kind (fun _ _ => feed_empate) "all" "month")
    = ["a"; "b"; "c"] /\
  keeps_order_of_ties
    (tabla_sin_ordenar feed_empate)
    (@generaTabla numpy_quicksort_kind (fun _ _ => feed_empate) "all" "month").
Proof.
  assert (H : (List.length (filter (notna time_utc) (tabla_sin_ordenar feed_empate))
               <= 17)%nat) by (vm_compute; repeat constructor).
  split; [exact H|]. split; [vm_compute; reflexivity|].
  exact (small_feed_keeps_order_of_ties (fun _ _ => feed_empate) "all" "month" H).
Defined.

(** C9: normalisation keeps one row per event of the feed. *)
Theorem C9_generaTabla_one_row_per_event
    (kind : SortKind) (Hkind : sorts kind)
    (QuakeFeed : string -> string -> list RawEvent) (severidad periodo : string) :
  let feed := QuakeFeed severidad periodo in
  List.length (magnitud_size_col (magnitudes feed)) = List.length feed /\
  List.length (tabla_sin_ordenar feed) = List.length feed /\
  Permutation (tabla_sin_ordenar feed) (generaTabla QuakeFeed severidad periodo) /\
  List.length (generaTabla QuakeFeed severidad periodo) = List.length feed.
Proof.
  intros feed. split; [|split; [|split]].
  - rewrite magnitud_size_col_length. apply length_map.
  - apply tabla_sin_ordenar_length.
  - apply sort_values_desc_perm, Hkind.
  - unfold generaTabla. rewrite sort_values_desc_length by exact Hkind.
    apply tabla_sin_ordenar_length.
Qed.

Lemma C9_generaTabla_one_row_per_event_witness :
  sorts stable_kind /\
  List.length (@generaTabla stable_kind (fun _ _ => feed_empate) "all" "month") = 3%nat.
Proof.
  split; [exact stable_kind_sorts|].
  exact (proj2 (proj2 (proj2
    (C9_generaTabla_one_row_per_event stable_kind stable_kind_sorts
       (fun _ _ => feed_empate) "all" "month")))).
Defined.

(** *** magnitud_size *)

Lemma size_cell_spec (m : float) :
  Pandas.fillna 0 (Pandas.clip_lower 0 m) = size_spec m.
Proof.
  unfold Pandas.fillna, Pandas.clip_lower, size_spec, fmax.
  destruct (is_nan m) eqn:En; simpl.
  - rewrite En. reflexivity.
  - rewrite (ltb_negb_leb m 0 En eq_refl).
    destruct (0 <=? m); simpl; [rewrite En|]; reflexivity.
Qed.

Lemma size_spec_nonneg (m : float) :
  is_nan (size_spec m) = false /\ (0 <=? size_spec m) = true.
Proof.
  rewrite <- size_cell_spec. unfold Pandas.fillna, Pandas.clip_lower.
  destruct (is_nan m) eqn:En; simpl.
  - rewrite En. split; reflexivity.
  - destruct (0 <=? m) eqn:E; [rewrite En|]; split; auto.
Qed.

Lemma size_spec_zero (m : float) : (size_spec m =? 0) = null_or_nonpos m.
Proof.
  rewrite <- size_cell_spec.
  unfold Pandas.fillna, Pandas.clip_lower, null_or_nonpos.
  destruct (is_nan m) eqn:En; simpl.
  - rewrite En. reflexivity.
  - destruct (0 <=? m) eqn:E; simpl.
    + rewrite En. destruct (m <=? 0) eqn:E'.
      * apply leb_antisym_eqb; assumption.
      * destruct (m =? 0) eqn:Eq; [|reflexivity].
        apply eqb_leb in Eq. congruence.
    + destruct (leb_total m 0 En eq_refl) as [H|H]; [|congruence].
      rewrite H. reflexivity.
Qed.

Lemma all_zero_test (mags : list float) :
  forallb (fun x => x =? 0)
    (map (fun m => Pandas.fillna 0 (Pandas.clip_lower 0 m)) mags)
  = forallb null_or_nonpos mags.
Proof.
  induction mags as [|m mags IH]; simpl; [reflexivity|].
  rewrite IH, size_cell_spec, size_spec_zero. reflexivity.
Qed.

(** The column [magnitud_size] in the words of the specification. *)
Lemma magnitud_size_col_spec (mags : list float) :
  magnitud_size_col mags =
  if forallb null_or_nonpos mags then map (fun _ => 0.1) mags else map size_spec mags.
Proof.
  rewrite magnitud_size_col_map, all_zero_test.
  destruct (forallb null_or_nonpos mags); apply map_ext; intros m;
    [reflexivity|apply size_cell_spec].
Qed.

Lemma magnitud_size_cell
    (kind : SortKind) (Hkind : sorts kind)
    (QuakeFeed : string -> string -> list RawEvent) (severidad periodo : string)
    (r : Fila) :
  In r (generaTabla QuakeFeed severidad periodo) ->
  magnitud_size r =
    if forallb null_or_nonpos (magnitudes (QuakeFeed severidad periodo))
    then 0.1 else size_spec (magnitud r).
Proof.
  unfold generaTabla. intros Hr.
  apply (sort_values_desc_in Hkind) in Hr.
  rewrite tabla_sin_ordenar_map, all_zero_test in Hr.
  apply in_map_iff in Hr. destruct Hr as [e [<- _]]. simpl.
  rewrite size_cell_spec. reflexivity.
Qed.

Lemma map_const_repeat {A B : Type} (f : A -> B) (c : B) (l : list A) :
  (forall x, In x l -> f x = c) -> map f l = repeat c (List.length l).
Proof.
  induction l as [|x l IH]; intros H; simpl; [reflexivity|].
  rewrite (H x (or_introl eq_refl)), IH; [reflexivity|].
  intros y Hy. apply H. right. exact Hy.
Qed.

(** C4: the column [magnitud_size] of every feed holds, event by event,
    max(magnitud, 0) with a null magnitude counting as 0, unless every
    magnitude of the feed is null or at most 0, and then it holds 0.1
    everywhere; the table has one row per event, with the place, the
    magnitude and that size of the event; and no [magnitud_size] of the
    table is null or negative. *)
Theorem C4_magnitud_size
    (kind : SortKind) (Hkind : sorts kind)
    (QuakeFeed : string -> string -> list RawEvent) (severidad periodo : string) :
  let feed := QuakeFeed severidad periodo in
  let tabla := generaTabla QuakeFeed severidad periodo in
  let size_of (m : float) : float :=
    if forallb null_or_nonpos (magnitudes feed) then 0.1 else size_spec m in
  magnitud_size_col (magnitudes feed) = map size_of (magnitudes feed) /\
  Permutation
    (map (fun e => (ev_place e, Pandas.to_numeric (ev_mag e),
                    size_of (Pandas.to_numeric (ev_mag e)))) feed)
    (map (fun r => (localizacion r, magnitud r, magnitud_size r)) tabla) /\
  (forall r : Fila, In r tabla ->
     is_nan (magnitud_size r) = false /\
     (0 <=? magnitud_size r) = true /\
     magnitud_size r = size_of (magnitud r)).
Proof.
  intros feed tabla size_of.
  split; [|split].
  - unfold size_of. rewrite magnitud_size_col_spec.
    destruct (forallb null_or_nonpos (magnitudes feed)); reflexivity.
  - unfold tabla, generaTabla. fold feed.
    eapply perm_trans;
      [|apply Permutation_map, (sort_values_desc_perm Hkind)].
    rewrite tabla_sin_ordenar_map, all_zero_test, map_map. fold size_of.
    replace (map (fun e => (ev_place e, Pandas.to_numeric (ev_mag e),
                            size_of (Pandas.to_numeric (ev_mag e)))) feed)
      with (map (fun e =>
                   (localizacion
                      (fila_de e (if forallb null_or_nonpos (magnitudes feed) then 0.1
                                  else Pandas.fillna 0
                                         (Pandas.clip_lower 0 (Pandas.to_numeric (ev_mag e))))),
                    magnitud
                      (fila_de e (if forallb null_or_nonpos (magnitudes feed) then 0.1
                                  else Pandas.fillna 0
                                         (Pandas.clip_lower 0 (Pandas.to_numeric (ev_mag e))))),
                    magnitud_size
                      (fila_de e (if forallb null_or_nonpos (magnitudes feed) then 0.1
                                  else Pandas.fillna 0
                                         (Pandas.clip_lower 0 (Pandas.to_numeric (ev_mag e)))))))
                feed); [apply Permutation_refl|].
    apply map_ext. intros e. simpl. unfold size_of. rewrite size_cell_spec. reflexivity.
  - intros r Hr. unfold size_of.
    rewrite (magnitud_size_cell kind Hkind QuakeFeed severidad periodo r Hr).
    fold feed. destruct (forallb null_or_nonpos (magnitudes feed)).
    + repeat split; reflexivity.
    + destruct (size_spec_nonneg (magnitud r)) as [H1 H2].
      repeat split; assumption.
Qed.

(** Scenario A: the sizes are 1.5, 4 and, for the null magnitude, 0. *)
Lemma C4_magnitud_size_witness :
  sorts stable_kind /\
  map (fun r => (localizacion r, magnitud r, magnitud_size r))
      (@generaTabla stable_kind (fun _ _ => feed_A) "all" "month")
    = [("x", 1.5, 1.5); ("y", 4.0, 4.0); ("z", nan, 0)] /\
  magnitud_size_col (magnitudes feed_A) = map size_spec (magnitudes feed_A) /\
  Permutation
    (map (fun e => (ev_place e, Pandas.to_numeric (ev_mag e),
                    size_spec (Pandas.to_numeric (ev_mag e)))) feed_A)
    (map (fun r => (localizacion r, magnitud r, magnitud_size r))
         (@generaTabla stable_kind (fun _ _ => feed_A) "all" "month")) /\
  (forall r : Fila,
     In r (@generaTabla stable_kind (fun _ _ => feed_A) "all" "month") ->
     is_nan (magnitud_size r) = false /\
     (0 <=? magnitud_size r) = true /\
     magnitud_size r = size_spec (magnitud r)).
Proof.
  split; [exact stable_kind_sorts|].
  split; [vm_compute; reflexivity|].
  exact (C4_magnitud_size stable_kind stable_kind_sorts (fun _ _ => feed_A)
           "all" "month").
Defined.

(** X2 (scenario C): when every magnitude of the feed is 0, the column
    [magnitud_size] of the table holds the visibility constant 0.1 once for
    each event of the feed. *)
Lemma magnitud_size_all_zero
    (kind : SortKind) (Hkind : sorts kind)
    (QuakeFeed : string -> string -> list RawEvent) (severidad periodo : string) :
  Forall (fun m => m = 0) (magnitudes (QuakeFeed severidad periodo)) ->
  map magnitud_size (generaTabla QuakeFeed severidad periodo)
    = repeat 0.1 (List.length (QuakeFeed severidad periodo)).
Proof.
  intros Hz.
  assert (Hall : forallb null_or_nonpos (magnitudes (QuakeFeed severidad periodo)) = true).
  { apply forallb_forall. intros m Hm.
    rewrite Forall_forall in Hz. rewrite (Hz m Hm). reflexivity. }
  assert (Hlen : List.length (generaTabla QuakeFeed severidad periodo)
                 = List.length (QuakeFeed severidad periodo)).
  { unfold generaTabla. rewrite sort_values_desc_length by exact Hkind.
    apply tabla_sin_ordenar_length. }
  rewrite <- Hlen. apply map_const_repeat. intros r Hr.
  rewrite (magnitud_size_cell kind Hkind QuakeFeed severidad periodo r Hr), Hall.
  reflexivity.
Qed.

Lemma magnitud_size_all_zero_witness :
  sorts stable_kind /\
  Forall (fun m => m = 0) (magnitudes feed_ceros) /\
  map magnitud_size (@generaTabla stable_kind (fun _ _ => feed_ceros) "all" "month")
    = [0.1; 0.1].
Proof.
  split; [exact stable_kind_sorts|].
  assert (Hz : Forall (fun m => m = 0) (magnitudes feed_ceros))
    by (repeat constructor).
  split; [exact Hz|].
  exact (magnitud_size_all_zero stable_kind stable_kind_sorts (fun _ _ => feed_ceros)
           "all" "month" Hz).
Defined.

(** *** filtrar_puerto_rico *)

Lemma filtrar_puerto_rico_filter (df : list Fila) :
  filtrar_puerto_rico df = filter en_puerto_rico df.
Proof. destruct df; reflexivity. Qed.

Lemma filter_idem {A : Type} (p : A -> bool) (l : list A) :
  filter p (filter p l) = filter p l.
Proof. apply filter_filter_impl. auto. Qed.

Lemma en_puerto_rico_bounds (r : Fila) :
  en_puerto_rico r = true <->
  (17.6 <=? lat r) = true /\ (lat r <=? 18.7) = true /\
  (-67.8 <=? lon r) = true /\ (lon r <=? -64.8) = true.
Proof.
  unfold en_puerto_rico, Pandas.between. simpl.
  rewrite !andb_true_iff. tauto.
Qed.

(** C5: the regional filter keeps, in order, exactly the rows inside the
    bounding box, bounds included; applying it twice is applying it once;
    another zone leaves the frame as it is; and when no row is inside the
    box the result is the empty frame. *)
Theorem C5_filtro_zona (df : list Fila) :
  filtro_zona "Puerto Rico" (filtro_zona "Puerto Rico" df) = filtro_zona "Puerto Rico" df /\
  filtro_zona "Puerto Rico" df = filter en_puerto_rico df /\
  (forall r, In r (filtro_zona "Puerto Rico" df) <->
             In r df /\
             (17.6 <=? lat r) = true /\ (lat r <=? 18.7) = true /\
             (-67.8 <=? lon r) = true /\ (lon r <=? -64.8) = true) /\
  filtro_zona "Mundo" df = df /\
  (forall zona, zona <> "Puerto Rico" -> filtro_zona zona df = df) /\
  ((forall r, In r df -> en_puerto_rico r = false) -> filtro_zona "Puerto Rico" df = []).
Proof.
  assert (E : filtro_zona "Puerto Rico" df = filter en_puerto_rico df).
  { unfold filtro_zona. simpl. apply filtrar_puerto_rico_filter. }
  split; [|split; [exact E|split; [|split; [|split]]]].
  - rewrite E. unfold filtro_zona. simpl.
    rewrite filtrar_puerto_rico_filter. apply filter_idem.
  - intros r. rewrite E, filter_In, en_puerto_rico_bounds. tauto.
  - reflexivity.
  - intros zona Hz. unfold filtro_zona.
    destruct (String.eqb_spec zona "Puerto Rico"); [contradiction|reflexivity].
  - intros Hout. rewrite E. clear E.
    induction df as [|x df IH]; [reflexivity|]. simpl.
    rewrite (Hout x (or_introl eq_refl)). apply IH.
    intros r Hr. apply Hout. right. exact Hr.
Qed.

(** *** Null coordinates *)

Lemma between_null (lo hi x : float) : is_nan x = true -> Pandas.between lo hi x = false.
Proof. intros H. unfold Pandas.between. now rewrite (leb_nan_r lo x H). Qed.

Lemma to_numeric_not_a_number (s : string) :
  Pandas.to_numeric PyNone = nan /\ Pandas.to_numeric (PyOther s) = nan.
Proof. split; reflexivity. Qed.

Lemma filtro_mundo (df : list Fila) : filtro_zona "Mundo" df = df.
Proof. reflexivity. Qed.

Lemma null_coordinate_not_in_puerto_rico (df : list Fila) (r : Fila) :
  is_nan (lat r) = true \/ is_nan (lon r) = true ->
  ~ In r (filtro_zona "Puerto Rico" df).
Proof.
  intros Hnull. unfold filtro_zona. simpl.
  rewrite filtrar_puerto_rico_filter, filter_In.
  intros [_ Hin]. unfold en_puerto_rico in Hin.
  apply andb_true_iff in Hin. destruct Hin as [Hlat Hlon].
  destruct Hnull as [H|H].
  - rewrite (between_null _ _ _ H) in Hlat. discriminate.
  - rewrite (between_null _ _ _ H) in Hlon. discriminate.
Qed.

(** C10: no row whose latitude or longitude is null is in the regional view;
    an event of the feed whose latitude or longitude is coerced to null has
    its row in the unrestricted view and not in the regional one. *)
Theorem C10_null_coordinates_excluded
    (kind : SortKind) (Hkind : sorts kind)
    (QuakeFeed : string -> string -> list RawEvent) (severidad periodo : string) :
  let tabla := generaTabla QuakeFeed severidad periodo in
  (forall r, is_nan (lat r) = true \/ is_nan (lon r) = true ->
             ~ In r (filtro_zona "Puerto Rico" tabla)) /\
  (forall e, In e (QuakeFeed severidad periodo) ->
             is_nan (Pandas.to_numeric (ev_lat e)) = true \/
             is_nan (Pandas.to_numeric (ev_lon e)) = true ->
             exists r, In r (filtro_zona "Mundo" tabla) /\
                       ~ In r (filtro_zona "Puerto Rico" tabla) /\
                       time r = ev_time e /\ localizacion r = ev_place e /\
                       lat r = Pandas.to_numeric (ev_lat e) /\
                       lon r = Pandas.to_numeric (ev_lon e)).
Proof.
  intros tabla. split.
  - intros r. apply null_coordinate_not_in_puerto_rico.
  - intros e He Hnull.
    set (s := if forallb (fun x => x =? 0)
                   (map (fun m => Pandas.fillna 0 (Pandas.clip_lower 0 m))
                        (magnitudes (QuakeFeed severidad periodo)))
              then 0.1
              else Pandas.fillna 0 (Pandas.clip_lower 0 (Pandas.to_numeric (ev_mag e)))).
    exists (fila_de e s). split; [|split].
    + rewrite filtro_mundo. unfold tabla, generaTabla.
      apply (sort_values_desc_in Hkind).
      rewrite tabla_sin_ordenar_map.
      apply in_map_iff. exists e. split; [reflexivity|exact He].
    + apply null_coordinate_not_in_puerto_rico. exact Hnull.
    + repeat split.
Qed.

Lemma C10_null_coordinates_excluded_witness :
  sorts stable_kind /\
  map localizacion
      (filtro_zona "Mundo"
         (@generaTabla stable_kind (fun _ _ => feed_sin_latitud) "all" "month")) = ["e"; "f"] /\
  map localizacion
      (filtro_zona "Puerto Rico"
         (@generaTabla stable_kind (fun _ _ => feed_sin_latitud) "all" "month")) = ["f"] /\
  forall r, is_nan (lat r) = true \/ is_nan (lon r) = true ->
            ~ In r (filtro_zona "Puerto Rico"
                      (@generaTabla stable_kind (fun _ _ => feed_sin_latitud) "all" "month")).
Proof.
  split; [exact stable_kind_sorts|].
  split; [vm_compute; reflexivity|].
  split; [vm_compute; reflexivity|].
  exact (proj1 (C10_null_coordinates_excluded stable_kind stable_kind_sorts
                  (fun _ _ => feed_sin_latitud) "all" "month")).
Defined.

(** *** magnitud_color *)

Lemma getitem_cons (k' v : string) (d : list (string * string)) (k : string) :
  getitem ((k', v) :: d) k = if String.eqb k' k then Some v else getitem d k.
Proof. unfold getitem. simpl. destruct (String.eqb k' k); reflexivity. Qed.

Ltac getitem_cases H :=
  repeat (rewrite getitem_cons in H;
          match type of H with
          | context [String.eqb ?a ?b] =>
            destruct (String.eqb_spec a b); [try discriminate H|]
          end).

Lemma rango_fijo_iff (zona sev_label periodo_label : string) :
  rango_fijo zona sev_label periodo_label = true <->
  configuracion_referencia zona sev_label periodo_label.
Proof.
  unfold rango_fijo, configuracion_referencia. rewrite !andb_true_iff, !String.eqb_eq.
  split.
  - intros [[-> ->] ->]. repeat split.
  - intros [-> [Hs Hp]]. repeat split.
    + unfold sev_map in Hs. getitem_cases Hs; [congruence|discriminate Hs].
    + unfold periodo_map in Hp. getitem_cases Hp; [congruence|discriminate Hp].
Qed.

Lemma clip_color_pinned (m : float) : color_pinned m (Pandas.clip 1.8 3.0 m).
Proof.
  unfold color_pinned, Pandas.clip, Pandas.clip_lower, in_color_range.
  destruct (is_nan m) eqn:En; simpl; [exact En|].
  destruct (m <=? 3.0) eqn:Eh, (1.8 <=? m) eqn:El; try reflexivity.
  rewrite El, Eh. reflexivity.
Qed.

(** C3, null magnitudes apart: under the reference configuration the colour
    cell of a row of non-null magnitude lies in [1.8, 3.0] and the colour
    cell of a row of null magnitude is null; under any other configuration
    the colour column is the magnitude column. *)
Theorem C3_magnitud_color (zona sev_label periodo_label : string) (df : list Fila) :
  let color := magnitud_color_col zona sev_label periodo_label df in
  (configuracion_referencia zona sev_label periodo_label ->
   List.length color = List.length df /\
   Forall (fun p => color_pinned (magnitud (fst p)) (snd p)) (combine df color)) /\
  (~ configuracion_referencia zona sev_label periodo_label ->
   color = map magnitud df).
Proof.
  intros color. unfold color, magnitud_color_col.
  destruct (rango_fijo zona sev_label periodo_label) eqn:E.
  - split.
    + intros _. split; [apply length_map|].
      rewrite combine_map_r. apply Forall_forall. intros p Hp.
      apply in_map_iff in Hp. destruct Hp as [r [<- _]]. simpl.
      apply clip_color_pinned.
    + intros Hn. exfalso. apply Hn, rango_fijo_iff, E.
  - split.
    + intros Hc. apply rango_fijo_iff in Hc. congruence.
    + reflexivity.
Qed.

(** C3, null magnitudes: an event of Puerto Rico with a null magnitude has a
    null colour cell under the reference configuration, and null is not in
    [1.8, 3.0]. *)
Lemma C3_null_magnitude_color_out_of_range :
  configuracion_referencia "Puerto Rico" "todos" "mes" /\
  magnitud_color_col "Puerto Rico" "todos" "mes"
    (filtro_zona "Puerto Rico"
       (@generaTabla stable_kind (fun _ _ => feed_sin_magnitud) "all" "month")) = [nan] /\
  in_color_range nan = false /\
  ~ Forall (fun c => in_color_range c = true)
      (magnitud_color_col "Puerto Rico" "todos" "mes"
         (filtro_zona "Puerto Rico"
            (@generaTabla stable_kind (fun _ _ => feed_sin_magnitud) "all" "month"))).
Proof.
  split; [repeat split|].
  split; [vm_compute; reflexivity|].
  split; [vm_compute; reflexivity|].
  intros H.
  replace (magnitud_color_col _ _ _ _) with [nan] in H by (vm_compute; reflexivity).
  inversion H as [|? ? Hc _]; subst. vm_compute in Hc. discriminate Hc.
Qed.

(** *** Metrics *)

Lemma mean_skips_nulls (col : list float) :
  Pandas.mean col = Pandas.mean (filter (fun x => negb (is_nan x)) col).
Proof.
  unfold Pandas.mean, Pandas.count, Pandas.sum. rewrite !filter_idem. reflexivity.
Qed.

Lemma Permutation_three {A : Type} (a b c : A) (l : list A) :
  Permutation [a; b; c] l ->
  l = [a; b; c] \/ l = [a; c; b] \/ l = [b; a; c] \/
  l = [b; c; a] \/ l = [c; a; b] \/ l = [c; b; a].
Proof.
  intros H.
  destruct (Permutation_vs_cons_inv (Permutation_sym H)) as [l1 [l2 ->]].
  apply Permutation_cons_app_inv in H.
  apply Permutation_length_2_inv in H.
  destruct H as [H|H];
    destruct l1 as [|x [|y [|z l1]]]; simpl in H; inversion H; subst; simpl; tauto.
Qed.

Lemma generaTabla_cells
    (kind : SortKind) (Hkind : sorts kind)
    (QuakeFeed : string -> string -> list RawEvent) (severidad periodo : string) :
  Permutation
    (map (fun e => (Pandas.to_numeric (ev_mag e),
                    clasificacion_richter (PyFloat (Pandas.to_numeric (ev_mag e)))))
         (QuakeFeed severidad periodo))
    (map (fun r => (magnitud r, clasificacion r))
         (generaTabla QuakeFeed severidad periodo)).
Proof.
  unfold generaTabla.
  eapply perm_trans;
    [|apply Permutation_map, sort_values_desc_perm, Hkind].
  rewrite tabla_sin_ordenar_map, map_map. apply Permutation_refl.
Qed.

Lemma prom_mag_non_null (df : list Fila) :
  prom_mag df = Pandas.mean (filter (fun x => negb (is_nan x)) (map magnitud df)).
Proof.
  unfold prom_mag, cantidad. destruct df as [|r df]; [reflexivity|].
  apply mean_skips_nulls.
Qed.

Lemma prom_prof_non_null (df : list Fila) :
  prom_prof df = Pandas.mean (filter (fun x => negb (is_nan x)) (map profundidad df)).
Proof.
  unfold prom_prof, cantidad. destruct df as [|r df]; [reflexivity|].
  apply mean_skips_nulls.
Qed.

(** C6: the means of the summary are taken over the non-null cells.  With a
    feed of three events of magnitudes 1.5, 4.0 and null and the
    unrestricted zone, the rows carry the classes "micro", "ligero" and
    "desconocida" next to those magnitudes, the count is 3 and the mean
    magnitude, taken over the two non-null values, is 2.75. *)
Theorem C6_scenario_A
    (kind : SortKind) (Hkind : sorts kind)
    (QuakeFeed : string -> string -> list RawEvent) (severidad periodo : string)
    (e1 e2 e3 : RawEvent) :
  QuakeFeed severidad periodo = [e1; e2; e3] ->
  ev_mag e1 = PyFloat 1.5 -> ev_mag e2 = PyFloat 4.0 -> ev_mag e3 = PyNone ->
  let df := filtro_zona "Mundo" (generaTabla QuakeFeed severidad periodo) in
  Permutation [(1.5, "micro"); (4.0, "ligero"); (nan, "desconocida")]
              (map (fun r => (magnitud r, clasificacion r)) df) /\
  cantidad df = 3%nat /\
  Pandas.count (map magnitud df) = 2%nat /\
  prom_mag df = 2.75 /\
  prom_mag_str df = "2.75" /\
  prom_mag df = Pandas.mean (filter (fun x => negb (is_nan x)) (map magnitud df)) /\
  prom_prof df = Pandas.mean (filter (fun x => negb (is_nan x)) (map profundidad df)).
Proof.
  intros Hfeed H1 H2 H3 df. unfold df. rewrite filtro_mundo.
  rewrite <- prom_mag_non_null, <- prom_prof_non_null.
  pose proof (generaTabla_cells kind Hkind QuakeFeed severidad periodo) as Hp.
  rewrite Hfeed in Hp. simpl in Hp. rewrite H1, H2, H3 in Hp. simpl in Hp.
  change (clasificacion_richter (PyFloat 1.5)) with "micro" in Hp.
  change (clasificacion_richter (PyFloat 4.0)) with "ligero" in Hp.
  change (clasificacion_richter (PyFloat nan)) with "desconocida" in Hp.
  split; [exact Hp|].
  assert (Hlen : cantidad (generaTabla QuakeFeed severidad periodo) = 3%nat).
  { unfold cantidad. rewrite <- (length_map (fun r => (magnitud r, clasificacion r))).
    rewrite <- (Permutation_length Hp). reflexivity. }
  split; [exact Hlen|].
  assert (Hm : Permutation [1.5; 4.0; nan]
                 (map magnitud (generaTabla QuakeFeed severidad periodo))).
  { apply (Permutation_map fst) in Hp. rewrite map_map in Hp. exact Hp. }
  unfold prom_mag_str, prom_mag. rewrite Hlen. simpl Nat.ltb. cbv iota.
  apply Permutation_three in Hm.
  destruct Hm as [E|[E|[E|[E|[E|E]]]]]; rewrite E;
    repeat split; vm_compute; reflexivity.
Qed.

Lemma C6_scenario_A_witness :
  sorts stable_kind /\
  let df := filtro_zona "Mundo" (@generaTabla stable_kind (fun _ _ => feed_A) "all" "month") in
  Permutation [(1.5, "micro"); (4.0, "ligero"); (nan, "desconocida")]
              (map (fun r => (magnitud r, clasificacion r)) df) /\
  cantidad df = 3%nat /\
  Pandas.count (map magnitud df) = 2%nat /\
  prom_mag df = 2.75 /\
  prom_mag_str df = "2.75" /\
  prom_mag df = Pandas.mean (filter (fun x => negb (is_nan x)) (map magnitud df)) /\
  prom_prof df = Pandas.mean (filter (fun x => negb (is_nan x)) (map profundidad df)).
Proof.
  split; [exact stable_kind_sorts|].
  exact (C6_scenario_A stable_kind stable_kind_sorts (fun _ _ => feed_A) "all" "month"
           _ _ _ eq_refl eq_refl eq_refl eq_refl).
Defined.

(** *** The table of the strongest events *)

Lemma float_key_total (r1 r2 : FilaTabla) (a b : float) :
  float_key (t_magnitud r1) = Some a -> float_key (t_magnitud r2) = Some b ->
  (a <=? b) = true \/ (b <=? a) = true.
Proof.
  unfold float_key. intros Ha Hb.
  destruct (is_nan (t_magnitud r1)) eqn:E1; [discriminate|].
  destruct (is_nan (t_magnitud r2)) eqn:E2; [discriminate|].
  inversion Ha; inversion Hb; subst. apply leb_total; assumption.
Qed.

Lemma le_key_no_mayor (a b : FilaTabla) :
  notna (fun r => float_key (t_magnitud r)) a = true ->
  notna (fun r => float_key (t_magnitud r)) b = true ->
  le_key (fun r => float_key (t_magnitud r)) leb b a = true -> no_mayor a b.
Proof.
  unfold notna, le_key, no_mayor, float_key.
  destruct (is_nan (t_magnitud a)), (is_nan (t_magnitud b)); try discriminate.
  auto.
Qed.

Lemma Sorted_impl_in {A : Type} (P Q : A -> A -> Prop) (l : list A) :
  (forall a b, In a l -> In b l -> P a b -> Q a b) -> Sorted P l -> Sorted Q l.
Proof.
  intros HPQ Hs. induction Hs as [|a l Hs IH Hd]; constructor.
  - apply IH. intros x y Hx Hy. apply HPQ; right; assumption.
  - destruct Hd as [|b l' Hab]; constructor.
    apply HPQ; [left; reflexivity|right; left; reflexivity|exact Hab].
Qed.

Lemma map_fst_combine_seq {A : Type} (l : list A) (start : nat) :
  map fst (combine (seq start (List.length l)) l) = seq start (List.length l) /\
  map snd (combine (seq start (List.length l)) l) = l.
Proof.
  revert start. induction l as [|x l IH]; intros start; simpl; [split; reflexivity|].
  destruct (IH (S start)) as [H1 H2]. rewrite H1, H2. split; reflexivity.
Qed.

Lemma filter_map_comm {A B : Type} (f : A -> B) (p : B -> bool) (l : list A) :
  filter p (map f l) = map f (filter (fun x => p (f x)) l).
Proof.
  induction l as [|x l IH]; simpl; [reflexivity|].
  destruct (p (f x)); simpl; now rewrite IH.
Qed.

Lemma Sorted_map_inv {A B : Type} (f : A -> B) (P : B -> B -> Prop) (l : list A) :
  Sorted P (map f l) -> Sorted (fun a b => P (f a) (f b)) l.
Proof.
  induction l as [|x l IH]; intros H; [constructor|].
  simpl in H. inversion H as [|y l' Hs Hd]; subst.
  constructor; [apply IH; exact Hs|].
  destruct l as [|z l]; constructor.
  simpl in Hd. inversion Hd; subst. assumption.
Qed.

(** C7: the rows of the frame whose magnitude is not null, rearranged so that
    no row is stronger than the one before it, and then the rows of null
    magnitude in the order of the frame, are cut to the first [n] rows
    (exactly [n] when the frame has at least [n] rows); the table holds the
    date, the place, the magnitude and the class of each of them, and
    nothing else, under the labels 1, 2, ... up to the number of rows shown;
    the pass shows it when the toggle is on and the frame is not empty. *)
Theorem C7_df_tabla
    (kind : SortKind) (Hkind : sorts kind) (df : list Fila) (n : nat) :
  let t := df_tabla df n in
  List.length t = Nat.min n (List.length df) /\
  map fst t = seq 1 (Nat.min n (List.length df)) /\
  (n <= List.length df -> map fst t = seq 1 n)%nat /\
  (exists strongest : list Fila,
     Permutation (filter (fun r => negb (is_nan (magnitud r))) df) strongest /\
     Sorted (fun a b => (magnitud b <=? magnitud a) = true) strongest /\
     map snd t =
       map (fun r => {| t_fecha := fecha r;
                        t_localizacion := localizacion r;
                        t_magnitud := magnitud r;
                        t_clasificacion := clasificacion r |})
           (firstn n (strongest ++ filter (fun r => is_nan (magnitud r)) df))) /\
  (forall (c : Controles) (x : Fila) (rest : list Fila),
     df = x :: rest -> mostrar_tabla c = true -> slider c = n ->
     exists views, vistas c df = Dataframe t :: views /\
                   forallb (fun w => match w with Dataframe _ => false | _ => true end)
                           views = true).
Proof.
  intros t. unfold t, df_tabla.
  set (key := fun r : FilaTabla => float_key (t_magnitud r)).
  set (sorted := sort_values_desc key leb (map columnas_tabla df)).
  assert (Hlen : List.length (Pandas.head n sorted) = Nat.min n (List.length df)).
  { unfold Pandas.head. rewrite length_firstn. unfold sorted.
    rewrite sort_values_desc_length by exact Hkind. now rewrite length_map. }
  destruct (map_fst_combine_seq (Pandas.head n sorted) 1) as [Hfst Hsnd].
  split; [|split; [|split; [|split]]].
  - rewrite length_combine, length_seq, Nat.min_id. exact Hlen.
  - rewrite Hfst, Hlen. reflexivity.
  - intros Hn. rewrite Hfst, Hlen, Nat.min_l by exact Hn. reflexivity.
  - pose proof (non_nulls_sorted_perm Hkind key leb (map columnas_tabla df)) as Hp.
    rewrite filter_map_comm in Hp.
    apply Permutation_sym, Permutation_map_inv in Hp.
    destruct Hp as [strongest [Heq Hperm]].
    exists strongest. split; [|split].
    + eapply perm_trans; [|exact Hperm].
      replace (filter (fun r => negb (is_nan (magnitud r))) df)
        with (filter (fun x => notna key (columnas_tabla x)) df);
        [apply Permutation_refl|].
      apply filter_ext. intros r. unfold notna, key, float_key. simpl.
      destruct (is_nan (magnitud r)); reflexivity.
    + pose proof (non_nulls_sorted_notna Hkind key leb (map columnas_tabla df)) as Hnn.
      pose proof (non_nulls_sorted_desc Hkind key leb float_key_total
                    (map columnas_tabla df)) as Hs.
      rewrite Heq in Hnn, Hs. apply Sorted_map_inv in Hs.
      rewrite Forall_forall in Hnn.
      eapply Sorted_impl_in; [|exact Hs].
      intros a b Ha Hb Hab.
      apply (le_key_no_mayor (columnas_tabla a) (columnas_tabla b));
        [apply Hnn, in_map; exact Ha|apply Hnn, in_map; exact Hb|exact Hab].
    + rewrite Hsnd. unfold Pandas.head, sorted.
      unfold sort_values_desc. rewrite Heq, filter_map_comm.
      replace (filter (fun x => isna key (columnas_tabla x)) df)
        with (filter (fun r => is_nan (magnitud r)) df).
      * rewrite <- map_app, <- firstn_map. reflexivity.
      * apply filter_ext. intros r. unfold isna, notna, key, float_key. simpl.
        destruct (is_nan (magnitud r)); reflexivity.
  - intros c x rest -> Htab Hslider. unfold vistas, n_eventos_tabla.
    rewrite Htab, Hslider. eexists. split; [reflexivity|].
    destruct (mostrar_mapa c); reflexivity.
Qed.

(** Scenario D: twelve events in no order of magnitude, the toggle on and
    five rows asked for.  The table shows the five strongest, each with its
    own date, place and class. *)
Lemma C7_df_tabla_witness :
  sorts stable_kind /\
  let df := @generaTabla stable_kind (fun _ _ => feed_doce) "all" "month" in
  map magnitud df = [2.1; 5.4; nan; 3.3; 6.0; 1.2; 4.8; 2.9; 3.95; 0.5; 4.1; 5.0] /\
  @df_tabla stable_kind df 5 =
    [(1%nat, {| t_fecha := "8 de Enero de 1970"; t_localizacion := "Guayanilla";
                t_magnitud := 6.0; t_clasificacion := "fuerte" |});
     (2%nat, {| t_fecha := "11 de Enero de 1970"; t_localizacion := "Ponce";
                t_magnitud := 5.4; t_clasificacion := "moderado" |});
     (3%nat, {| t_fecha := "1 de Enero de 1970"; t_localizacion := "Fajardo";
                t_magnitud := 5.0; t_clasificacion := "moderado" |});
     (4%nat, {| t_fecha := "6 de Enero de 1970"; t_localizacion := "Penuelas";
                t_magnitud := 4.8; t_clasificacion := "ligero" |});
     (5%nat, {| t_fecha := "2 de Enero de 1970"; t_localizacion := "Arecibo";
                t_magnitud := 4.1; t_clasificacion := "ligero" |})] /\
  List.length (@df_tabla stable_kind df 5) = Nat.min 5 (List.length df) /\
  map fst (@df_tabla stable_kind df 5) = seq 1 (Nat.min 5 (List.length df)) /\
  ((5 <= List.length df)%nat -> map fst (@df_tabla stable_kind df 5) = seq 1 5) /\
  (exists strongest : list Fila,
     Permutation (filter (fun r => negb (is_nan (magnitud r))) df) strongest /\
     Sorted (fun a b => (magnitud b <=? magnitud a) = true) strongest /\
     map snd (@df_tabla stable_kind df 5) =
       map (fun r => {| t_fecha := fecha r;
                        t_localizacion := localizacion r;
                        t_magnitud := magnitud r;
                        t_clasificacion := clasificacion r |})
           (firstn 5 (strongest ++ filter (fun r => is_nan (magnitud r)) df))).
Proof.
  split; [exact stable_kind_sorts|].
  pose proof (C7_df_tabla stable_kind stable_kind_sorts
                (@generaTabla stable_kind (fun _ _ => feed_doce) "all" "month") 5) as H.
  cbv zeta in H. destruct H as [H1 [H2 [H3 [H4 _]]]].
  cbv zeta.
  split; [vm_compute; reflexivity|].
  split; [vm_compute; reflexivity|].
  split; [exact H1|]. split; [exact H2|]. split; [exact H3|]. exact H4.
Defined.

(** *** The empty frame *)

Lemma generaTabla_empty_feed
    (kind : SortKind) (Hkind : sorts kind)
    (QuakeFeed : string -> string -> list RawEvent) (severidad periodo : string) :
  QuakeFeed severidad periodo = [] -> generaTabla QuakeFeed severidad periodo = [].
Proof.
  intros Hfeed.
  pose proof (sort_values_desc_length Hkind time_utc Z.leb
                (tabla_sin_ordenar (QuakeFeed severidad periodo))) as Hlen.
  rewrite Hfeed in Hlen. simpl in Hlen.
  unfold generaTabla. rewrite Hfeed.
  destruct (sort_values_desc _ _ _); [reflexivity|discriminate].
Qed.

(** C8: when the filtered frame is empty the pass is not aborted; it shows
    the title, the metrics with count 0 and both means "N/A", and the notice
    that no event was found, and nothing after it: no table, no histogram
    and no map. *)
Theorem C8_empty_frame
    (kind : SortKind) (QuakeFeed : string -> string -> list RawEvent)
    (c : Controles) (fecha_peticion : Z) :
  df_filtrado QuakeFeed c = Some [] ->
  panel QuakeFeed c fecha_peticion =
    Some [Title APP_TITULO;
          Metricas (fecha_peticion_es fecha_peticion) 0 "N/A" "N/A";
          Warning "No se encontraron eventos para los filtros seleccionados."] /\
  (forall ws, panel QuakeFeed c fecha_peticion = Some ws ->
              forallb (fun w => negb (is_chart w)) ws = true).
Proof.
  intros Hdf.
  assert (E : panel QuakeFeed c fecha_peticion =
              Some [Title APP_TITULO;
                    Metricas (fecha_peticion_es fecha_peticion) 0 "N/A" "N/A";
                    Warning "No se encontraron eventos para los filtros seleccionados."]).
  { unfold panel. rewrite Hdf. reflexivity. }
  split; [exact E|].
  intros ws Hws. rewrite E in Hws. inversion Hws; subst. reflexivity.
Qed.

(** Scenario B: the feed returns no event for the selected window. *)
Lemma C8_empty_frame_witness :
  df_filtrado (kind := stable_kind) (fun _ _ => []) controles_referencia = Some [] /\
  panel (kind := stable_kind) (fun _ _ => []) controles_referencia 1765739658000000%Z =
    Some [Title APP_TITULO;
          Metricas "14 de Diciembre de 2025 03:14:18 PM" 0 "N/A" "N/A";
          Warning "No se encontraron eventos para los filtros seleccionados."].
Proof.
  split; [reflexivity|].
  exact (proj1 (C8_empty_frame stable_kind (fun _ _ => []) controles_referencia
                  1765739658000000%Z eq_refl)).
Defined.

(** X5 (scenario B): an empty feed gives an empty frame under every sort
    kind and zone. *)
Lemma empty_feed_empty_frame
    (kind : SortKind) (Hkind : sorts kind)
    (QuakeFeed : string -> string -> list RawEvent) (c : Controles)
    (severidad periodo : string) :
  getitem sev_map (sev_label c) = Some severidad ->
  getitem periodo_map (periodo_label c) = Some periodo ->
  QuakeFeed severidad periodo = [] ->
  df_filtrado QuakeFeed c = Some [].
Proof.
  intros Hs Hp Hfeed. unfold df_filtrado. rewrite Hs, Hp.
  rewrite (generaTabla_empty_feed kind Hkind _ _ _ Hfeed).
  unfold filtro_zona. destruct (String.eqb (zona c) "Puerto Rico"); reflexivity.
Qed.

Lemma empty_feed_empty_frame_witness :
  sorts tie_reversing_kind /\
  df_filtrado (kind := tie_reversing_kind) (fun _ _ => [])
    {| sev_label := "4.5"; periodo_label := "semana"; zona := "Mundo";
       mostrar_mapa := true; mostrar_tabla := true; slider := 10 |} = Some [].
Proof.
  split; [exact tie_reversing_kind_sorts|].
  exact (empty_feed_empty_frame tie_reversing_kind tie_reversing_kind_sorts
           (fun _ _ => [])
           {| sev_label := "4.5"; periodo_label := "semana"; zona := "Mundo";
              mostrar_mapa := true; mostrar_tabla := true; slider := 10 |}
           "4.5" "week" eq_refl eq_refl eq_refl).
Defined.

(** A frame emptied by the regional filter is handled in the same way. *)
Lemma no_event_in_region_example :
  panel (kind := stable_kind)
        (fun _ _ => [evento (Naive 9) "Tokyo" (PyFloat 35.6) (PyFloat 139.7) (PyFloat 5.2)])
        controles_referencia 1765739658000000%Z =
    Some [Title APP_TITULO;
          Metricas "14 de Diciembre de 2025 03:14:18 PM" 0 "N/A" "N/A";
          Warning "No se encontraron eventos para los filtros seleccionados."].
Proof. vm_compute. reflexivity. Qed.

(** *** The select boxes and the two dictionaries *)

(** X8: the two dictionaries map the options of the select boxes one to one
    onto the severities and the periods that the docstring of [generaTabla]
    lists, so two different selections never ask the feed for the same
    severity and period. *)
Theorem sev_map_periodo_map_onto_documented :
  map (getitem sev_map) OPCIONES_SEVERIDAD = map Some SEVERIDADES_FEED /\
  map (getitem periodo_map) OPCIONES_PERIODO = map Some PERIODOS_FEED /\
  NoDup SEVERIDADES_FEED /\ NoDup PERIODOS_FEED /\
  (forall l s, getitem sev_map l = Some s ->
               In l OPCIONES_SEVERIDAD /\ In s SEVERIDADES_FEED) /\
  (forall l p, getitem periodo_map l = Some p ->
               In l OPCIONES_PERIODO /\ In p PERIODOS_FEED) /\
  (forall l1 l2 s, getitem sev_map l1 = Some s -> getitem sev_map l2 = Some s -> l1 = l2) /\
  (forall l1 l2 p, getitem periodo_map l1 = Some p -> getitem periodo_map l2 = Some p ->
                   l1 = l2).
Proof.
  split; [reflexivity|]. split; [reflexivity|].
  split; [repeat constructor; simpl; intuition discriminate|].
  split; [repeat constructor; simpl; intuition discriminate|].
  split; [|split; [|split]].
  - intros l s H. unfold sev_map in H.
    getitem_cases H; try discriminate H; inversion H; subst; simpl; tauto.
  - intros l p H. unfold periodo_map in H.
    getitem_cases H; try discriminate H; inversion H; subst; simpl; tauto.
  - intros l1 l2 s H1 H2. unfold sev_map in H1, H2.
    getitem_cases H1; getitem_cases H2; subst; try congruence;
      try discriminate H1; try discriminate H2.
  - intros l1 l2 p H1 H2. unfold periodo_map in H1, H2.
    getitem_cases H1; getitem_cases H2; subst; try congruence;
      try discriminate H1; try discriminate H2.
Qed.

(** *** The rows of the table, event by event *)

Lemma generaTabla_row
    (kind : SortKind) (Hkind : sorts kind)
    (QuakeFeed : string -> string -> list RawEvent) (severidad periodo : string)
    (r : Fila) :
  In r (generaTabla QuakeFeed severidad periodo) <->
  exists e, In e (QuakeFeed severidad periodo) /\
            r = fila_de e
                  (if forallb null_or_nonpos (magnitudes (QuakeFeed severidad periodo))
                   then 0.1 else size_spec (Pandas.to_numeric (ev_mag e))).
Proof.
  unfold generaTabla. rewrite (sort_values_desc_in Hkind).
  rewrite tabla_sin_ordenar_map, all_zero_test, in_map_iff.
  split; intros [e [H1 H2]]; exists e.
  - rewrite size_cell_spec in H1. split; [exact H2|symmetry; exact H1].
  - subst r. rewrite size_cell_spec. split; [reflexivity|exact H1].
Qed.

Lemma filtro_zona_incl (zona : string) (df : list Fila) (r : Fila) :
  In r (filtro_zona zona df) -> In r df.
Proof.
  unfold filtro_zona. destruct (String.eqb zona "Puerto Rico"); [|auto].
  rewrite filtrar_puerto_rico_filter, filter_In. tauto.
Qed.

Lemma fecha_es_sola_empty_iff (t : option Z) : fecha_es_sola t = "" <-> t = None.
Proof.
  destruct t as [t|]; [|split; reflexivity].
  split; [|discriminate]. unfold fecha_es_sola.
  destruct (civil_from_days (t / us_per_day)) as [[y m] d].
  destruct (str_of_Z d); simpl; discriminate.
Qed.

(** X9: in the table a row has an empty date exactly when its time is null,
    which is exactly when the feed gave no [datetime] for it. *)
Theorem fecha_empty_iff_no_datetime
    (kind : SortKind) (Hkind : sorts kind)
    (QuakeFeed : string -> string -> list RawEvent) (severidad periodo : string)
    (r : Fila) :
  In r (generaTabla QuakeFeed severidad periodo) ->
  (fecha r = "" <-> time_utc r = None) /\
  (time_utc r = None <-> time r = NotDatetime).
Proof.
  intros Hr. apply (generaTabla_row kind Hkind) in Hr.
  destruct Hr as [e [_ ->]]. simpl. split.
  - apply fecha_es_sola_empty_iff.
  - destruct (ev_time e); simpl; split; congruence.
Qed.

Lemma fecha_empty_iff_no_datetime_witness :
  sorts stable_kind /\
  map fecha (@generaTabla stable_kind (fun _ _ => feed_empate) "all" "month")
    = ["1 de Enero de 1970"; "1 de Enero de 1970"; ""] /\
  Forall (fun r => fecha r = "" <-> time_utc r = None)
         (@generaTabla stable_kind (fun _ _ => feed_empate) "all" "month").
Proof.
  split; [exact stable_kind_sorts|]. split; [vm_compute; reflexivity|].
  apply Forall_forall. intros r Hr.
  exact (proj1 (fecha_empty_iff_no_datetime stable_kind stable_kind_sorts
                  (fun _ _ => feed_empate) "all" "month" r Hr)).
Defined.

Lemma clasificacion_richter_desconocida_iff (m : float) :
  clasificacion_richter (PyFloat m) = "desconocida" <-> is_nan m = true.
Proof.
  unfold clasificacion_richter, pd_isna, py_float.
  destruct (is_nan m); [split; reflexivity|].
  split; [|discriminate].
  repeat match goal with
         | |- context [if ?b then _ else _] => destruct b
         end; discriminate.
Qed.

(** X10: in the table a row is classified "desconocida" exactly when its
    magnitude is null; every row with a magnitude gets one of the eight
    tiers of the thresholds. *)
Theorem clasificacion_desconocida_iff_null_magnitud
    (kind : SortKind) (Hkind : sorts kind)
    (QuakeFeed : string -> string -> list RawEvent) (severidad periodo : string)
    (r : Fila) :
  In r (generaTabla QuakeFeed severidad periodo) ->
  clasificacion r = clasificacion_richter (PyFloat (magnitud r)) /\
  (clasificacion r = "desconocida" <-> is_nan (magnitud r) = true).
Proof.
  intros Hr. apply (generaTabla_row kind Hkind) in Hr.
  destruct Hr as [e [_ ->]]. simpl. split; [reflexivity|].
  apply clasificacion_richter_desconocida_iff.
Qed.

Lemma clasificacion_desconocida_iff_null_magnitud_witness :
  sorts stable_kind /\
  map clasificacion (@generaTabla stable_kind (fun _ _ => feed_A) "all" "month")
    = ["micro"; "ligero"; "desconocida"] /\
  Forall (fun r => clasificacion r = "desconocida" <-> is_nan (magnitud r) = true)
         (@generaTabla stable_kind (fun _ _ => feed_A) "all" "month").
Proof.
  split; [exact stable_kind_sorts|]. split; [vm_compute; reflexivity|].
  apply Forall_forall. intros r Hr.
  exact (proj2 (clasificacion_desconocida_iff_null_magnitud stable_kind stable_kind_sorts
                  (fun _ _ => feed_A) "all" "month" r Hr)).
Defined.

(** *** The count of the summary *)

Lemma filter_length_le {A : Type} (p : A -> bool) (l : list A) :
  (List.length (filter p l) <= List.length l)%nat.
Proof.
  induction l as [|x l IH]; simpl; [lia|]. destruct (p x); simpl; lia.
Qed.

(** X11: the count of the summary never exceeds the number of events of the
    feed, and equals it whenever the zone is not "Puerto Rico". *)
Theorem cantidad_at_most_feed
    (kind : SortKind) (Hkind : sorts kind)
    (QuakeFeed : string -> string -> list RawEvent) (severidad periodo zona : string) :
  (cantidad (filtro_zona zona (generaTabla QuakeFeed severidad periodo))
   <= List.length (QuakeFeed severidad periodo))%nat /\
  (zona <> "Puerto Rico" ->
   cantidad (filtro_zona zona (generaTabla QuakeFeed severidad periodo))
   = List.length (QuakeFeed severidad periodo)).
Proof.
  assert (Hlen : List.length (generaTabla QuakeFeed severidad periodo)
                 = List.length (QuakeFeed severidad periodo)).
  { unfold generaTabla. rewrite sort_values_desc_length by exact Hkind.
    apply tabla_sin_ordenar_length. }
  unfold cantidad, filtro_zona. split.
  - destruct (String.eqb zona "Puerto Rico"); [|lia].
    rewrite filtrar_puerto_rico_filter, <- Hlen. apply filter_length_le.
  - intros Hz. destruct (String.eqb_spec zona "Puerto Rico"); [contradiction|exact Hlen].
Qed.

Lemma cantidad_at_most_feed_witness :
  sorts stable_kind /\
  cantidad (filtro_zona "Puerto Rico"
              (@generaTabla stable_kind (fun _ _ => feed_region_ceros) "all" "month")) = 1%nat /\
  (cantidad (filtro_zona "Puerto Rico"
               (@generaTabla stable_kind (fun _ _ => feed_region_ceros) "all" "month"))
   <= 2)%nat.
Proof.
  split; [exact stable_kind_sorts|]. split; [vm_compute; reflexivity|].
  exact (proj1 (cantidad_at_most_feed stable_kind stable_kind_sorts
                  (fun _ _ => feed_region_ceros) "all" "month" "Puerto Rico")).
Defined.

(** *** Means without any value *)

Lemma mean_all_null (col : list float) :
  Forall (fun x => is_nan x = true) col -> Pandas.mean col = nan.
Proof.
  intros H. unfold Pandas.mean, Pandas.count.
  replace (filter (fun x => negb (is_nan x)) col) with (@nil float); [reflexivity|].
  induction H as [|x col Hx _ IH]; simpl; [reflexivity|]. rewrite Hx. exact IH.
Qed.

(** X12: "N/A" is shown only for an empty frame.  When the frame has rows
    but none has a magnitude (a depth), the summary shows the mean as "nan"
    ("nan km"). *)
Theorem promedio_nan_when_no_value (df : list Fila) :
  df <> [] ->
  (Forall (fun r => is_nan (magnitud r) = true) df -> prom_mag_str df = "nan") /\
  (Forall (fun r => is_nan (profundidad r) = true) df -> prom_prof_str df = "nan km").
Proof.
  intros Hne. destruct df as [|r df]; [contradiction|].
  unfold prom_mag_str, prom_prof_str, prom_mag, prom_prof, cantidad.
  change (Nat.ltb 0 (List.length (r :: df))) with true. cbv iota.
  split; intros H.
  - rewrite mean_all_null; [vm_compute; reflexivity|].
    apply Forall_map. exact H.
  - rewrite mean_all_null; [vm_compute; reflexivity|].
    apply Forall_map. exact H.
Qed.

Lemma promedio_nan_when_no_value_witness :
  @generaTabla stable_kind (fun _ _ => feed_sin_magnitud) "all" "month" <> [] /\
  prom_mag_str (@generaTabla stable_kind (fun _ _ => feed_sin_magnitud) "all" "month") = "nan".
Proof.
  assert (Hne : @generaTabla stable_kind (fun _ _ => feed_sin_magnitud) "all" "month" <> [])
    by (vm_compute; discriminate).
  split; [exact Hne|].
  apply (proj1 (promedio_nan_when_no_value _ Hne)).
  vm_compute. repeat constructor.
Defined.

(** *** Visible markers *)

Lemma forallb_false_exists {A : Type} (p : A -> bool) (l : list A) :
  forallb p l = false -> exists x, In x l /\ p x = false.
Proof.
  induction l as [|x l IH]; simpl; [discriminate|].
  destruct (p x) eqn:E.
  - intros H. destruct (IH H) as [y [Hy Hp]]. exists y. auto.
  - intros _. exists x. auto.
Qed.

Lemma size_spec_positive (m : float) :
  null_or_nonpos m = false -> size_spec m = m /\ (0 <? m) = true.
Proof.
  unfold null_or_nonpos, size_spec, fmax. intros H.
  apply orb_false_iff in H. destruct H as [Hn Hle]. rewrite Hn.
  rewrite (ltb_negb_leb 0 m eq_refl Hn), Hle.
  rewrite (ltb_negb_leb m 0 Hn eq_refl).
  destruct (leb_total m 0 Hn eq_refl) as [H|H]; [congruence|].
  rewrite H. split; reflexivity.
Qed.

(** X13: a table with rows has a row whose [magnitud_size] is positive, so
    the markers of the whole table are never all invisible. *)
Theorem generaTabla_some_visible_size
    (kind : SortKind) (Hkind : sorts kind)
    (QuakeFeed : string -> string -> list RawEvent) (severidad periodo : string) :
  generaTabla QuakeFeed severidad periodo <> [] ->
  exists r, In r (generaTabla QuakeFeed severidad periodo) /\
            (0 <? magnitud_size r) = true.
Proof.
  intros Hne.
  destruct (forallb null_or_nonpos (magnitudes (QuakeFeed severidad periodo))) eqn:E.
  - destruct (generaTabla QuakeFeed severidad periodo) as [|r df] eqn:Et;
      [contradiction|].
    exists r. split; [left; reflexivity|].
    assert (Hr : In r (generaTabla QuakeFeed severidad periodo))
      by (rewrite Et; left; reflexivity).
    rewrite (magnitud_size_cell kind Hkind _ _ _ r Hr), E. reflexivity.
  - apply forallb_false_exists in E. destruct E as [m [Hm Hp]].
    unfold magnitudes in Hm. apply in_map_iff in Hm. destruct Hm as [e [<- He]].
    eexists. split.
    + apply (generaTabla_row kind Hkind). exists e. split; [exact He|reflexivity].
    + simpl.
      destruct (forallb null_or_nonpos (magnitudes (QuakeFeed severidad periodo)));
        [reflexivity|].
      destruct (size_spec_positive _ Hp) as [-> H]. exact H.
Qed.

Lemma generaTabla_some_visible_size_witness :
  sorts stable_kind /\
  @generaTabla stable_kind (fun _ _ => feed_ceros) "all" "month" <> [] /\
  exists r, In r (@generaTabla stable_kind (fun _ _ => feed_ceros) "all" "month") /\
            (0 <? magnitud_size r) = true.
Proof.
  split; [exact stable_kind_sorts|].
  assert (Hne : @generaTabla stable_kind (fun _ _ => feed_ceros) "all" "month" <> [])
    by (vm_compute; discriminate).
  split; [exact Hne|].
  exact (generaTabla_some_visible_size stable_kind stable_kind_sorts
           (fun _ _ => feed_ceros) "all" "month" Hne).
Defined.

(** X14: the sizes are made visible over the whole feed, before the zone
    filter.  When some event of the feed has a positive magnitude, a row of
    the filtered frame whose magnitude is null or at most 0 keeps the size
    0; so a regional frame made of such rows has every marker at size 0. *)
Theorem filtered_frame_may_be_invisible
    (kind : SortKind) (Hkind : sorts kind)
    (QuakeFeed : string -> string -> list RawEvent) (severidad periodo zona : string) :
  forallb null_or_nonpos (magnitudes (QuakeFeed severidad periodo)) = false ->
  Forall (fun r => null_or_nonpos (magnitud r) = true -> (magnitud_size r =? 0) = true)
         (filtro_zona zona (generaTabla QuakeFeed severidad periodo)).
Proof.
  intros Hpos. apply Forall_forall. intros r Hr Hnull.
  apply filtro_zona_incl in Hr.
  rewrite (magnitud_size_cell kind Hkind _ _ _ r Hr), Hpos, size_spec_zero.
  exact Hnull.
Qed.

Lemma filtered_frame_may_be_invisible_witness :
  sorts stable_kind /\
  map magnitud_size
      (filtro_zona "Puerto Rico"
         (@generaTabla stable_kind (fun _ _ => feed_region_ceros) "all" "month")) = [0] /\
  Forall (fun r => null_or_nonpos (magnitud r) = true -> (magnitud_size r =? 0) = true)
         (filtro_zona "Puerto Rico"
            (@generaTabla stable_kind (fun _ _ => feed_region_ceros) "all" "month")).
Proof.
  split; [exact stable_kind_sorts|]. split; [vm_compute; reflexivity|].
  exact (filtered_frame_may_be_invisible stable_kind stable_kind_sorts
           (fun _ _ => feed_region_ceros) "all" "month" "Puerto Rico" eq_refl).
Defined.

(** *** The figures *)

Lemma magnitud_size_ok
    (kind : SortKind) (Hkind : sorts kind)
    (QuakeFeed : string -> string -> list RawEvent) (severidad periodo : string)
    (r : Fila) :
  In r (generaTabla QuakeFeed severidad periodo) ->
  is_nan (magnitud_size r) = false /\ (0 <=? magnitud_size r) = true.
Proof.
  intros Hr. rewrite (magnitud_size_cell kind Hkind _ _ _ r Hr).
  destruct (forallb null_or_nonpos _); [split; reflexivity|apply size_spec_nonneg].
Qed.

Lemma magnitud_color_col_map (zona sev_label periodo_label : string) (df : list Fila) :
  magnitud_color_col zona sev_label periodo_label df =
  map (fun r => if rango_fijo zona sev_label periodo_label
                then Pandas.clip 1.8 3.0 (magnitud r) else magnitud r) df.
Proof.
  unfold magnitud_color_col. destruct (rango_fijo zona sev_label periodo_label); reflexivity.
Qed.

Lemma generaMapa_marcadores (zona sev_label periodo_label : string) (df : list Fila) :
  marcadores_de
    (generaMapa df (magnitud_color_col zona sev_label periodo_label df) zona
                (rango_fijo zona sev_label periodo_label)) =
  map (fun r => marcador r (if rango_fijo zona sev_label periodo_label
                            then Pandas.clip 1.8 3.0 (magnitud r) else magnitud r)) df.
Proof.
  unfold generaMapa, marcadores_de. simpl.
  rewrite magnitud_color_col_map, combine_map_r, map_map. reflexivity.
Qed.

(** X15: the map of a pass has one marker per row of the filtered frame, at
    the coordinates of the row; no marker has a null or negative size; the
    colour axis is fixed to [1.8, 3.0] exactly under the reference
    configuration, its ticks lie inside that range, and then every marker
    colour is null or inside the axis, while otherwise the colour of a marker
    is the magnitude of its row. *)
Theorem generaMapa_markers
    (kind : SortKind) (Hkind : sorts kind)
    (QuakeFeed : string -> string -> list RawEvent)
    (severidad periodo zona sev_label periodo_label : string) :
  let df := filtro_zona zona (generaTabla QuakeFeed severidad periodo) in
  let fig := generaMapa df (magnitud_color_col zona sev_label periodo_label df) zona
                        (rango_fijo zona sev_label periodo_label) in
  map (fun k => (m_lat k, m_lon k)) (marcadores_de fig) = map (fun r => (lat r, lon r)) df /\
  Forall (fun k => is_nan (m_size k) = false /\ (0 <=? m_size k) = true)
         (marcadores_de fig) /\
  (coloraxis_de fig <> None <-> configuracion_referencia zona sev_label periodo_label) /\
  (forall cmin cmax ticks, coloraxis_de fig = Some (cmin, cmax, ticks) ->
     cmin = 1.8 /\ cmax = 3.0 /\
     Forall (fun t => (cmin <=? t) && (t <=? cmax) = true) ticks /\
     Forall (fun k => is_nan (m_color k) = true \/
                      (cmin <=? m_color k) && (m_color k <=? cmax) = true)
            (marcadores_de fig)) /\
  (coloraxis_de fig = None ->
     Forall (fun k => m_color k = m_hover_magnitud k) (marcadores_de fig)).
Proof.
  intros df fig. unfold fig. rewrite generaMapa_marcadores.
  split; [|split; [|split; [|split]]].
  - rewrite map_map. reflexivity.
  - apply Forall_forall. intros k Hk. apply in_map_iff in Hk.
    destruct Hk as [r [<- Hr]]. simpl.
    apply (magnitud_size_ok kind Hkind QuakeFeed severidad periodo).
    eapply filtro_zona_incl. exact Hr.
  - rewrite <- rango_fijo_iff. unfold generaMapa, coloraxis_de. simpl.
    destruct (rango_fijo zona sev_label periodo_label); split;
      congruence.
  - intros cmin cmax ticks. unfold generaMapa, coloraxis_de. simpl.
    destruct (rango_fijo zona sev_label periodo_label); [|discriminate].
    intros H. inversion H; subst. clear H.
    split; [reflexivity|]. split; [reflexivity|].
    split; [repeat constructor|].
    apply Forall_forall. intros k Hk. apply in_map_iff in Hk.
    destruct Hk as [r [<- _]]. simpl.
    pose proof (clip_color_pinned (magnitud r)) as Hc.
    unfold color_pinned, in_color_range in Hc.
    destruct (is_nan (magnitud r)); [left|right]; exact Hc.
  - unfold generaMapa, coloraxis_de. simpl.
    destruct (rango_fijo zona sev_label periodo_label); [discriminate|].
    intros _. apply Forall_forall. intros k Hk. apply in_map_iff in Hk.
    destruct Hk as [r [<- _]]. reflexivity.
Qed.

Lemma generaMapa_markers_witness :
  sorts stable_kind /\
  let df := filtro_zona "Puerto Rico"
              (@generaTabla stable_kind (fun _ _ => feed_A) "all" "month") in
  let fig := generaMapa df (magnitud_color_col "Puerto Rico" "todos" "mes" df)
                        "Puerto Rico" (rango_fijo "Puerto Rico" "todos" "mes") in
  map m_color (marcadores_de fig) = [1.8; 3.0; nan] /\
  Forall (fun k => is_nan (m_size k) = false /\ (0 <=? m_size k) = true)
         (marcadores_de fig).
Proof.
  split; [exact stable_kind_sorts|]. split; [vm_compute; reflexivity|].
  exact (proj1 (proj2 (generaMapa_markers stable_kind stable_kind_sorts
                         (fun _ _ => feed_A) "all" "month" "Puerto Rico" "todos" "mes"))).
Defined.

(** *** One frame behind every view of a pass *)

Lemma magnitud_color_col_length (zona sev_label periodo_label : string) (df : list Fila) :
  List.length (magnitud_color_col zona sev_label periodo_label df) = List.length df.
Proof. rewrite magnitud_color_col_map. apply length_map. Qed.

Lemma df_tabla_length (kind : SortKind) (Hkind : sorts kind) (df : list Fila) (n : nat) :
  List.length (df_tabla df n) = Nat.min n (List.length df).
Proof.
  unfold df_tabla, Pandas.head.
  rewrite length_combine, length_seq, Nat.min_id, length_firstn.
  rewrite sort_values_desc_length by exact Hkind. now rewrite length_map.
Qed.

(** What a widget shows of a frame of [n] rows when the table is cut to
    [filas] rows. *)
Lemma vistas_sizes
    (kind : SortKind) (Hkind : sorts kind) (c : Controles) (df : list Fila) (w : widget) :
  In w (vistas c df) ->
  match w with
  | PlotlyChart (Histograma _ x) => List.length x = List.length df
  | PlotlyChart (ScatterMapbox m) => List.length (marcadores m) = List.length df
  | Dataframe t => List.length t = Nat.min (slider c) (List.length df)
  | Metricas _ n _ _ => n = List.length df
  | _ => True
  end.
Proof.
  unfold vistas. destruct df as [|r df].
  { simpl. intros [H|H]; [subst w; exact I|destruct H]. }
  set (d := r :: df). rewrite !in_app_iff. intros [H|[H|H]].
  - unfold n_eventos_tabla in H. destruct (mostrar_tabla c) eqn:Et; [|destruct H].
    destruct H as [<-|[]]. apply df_tabla_length, Hkind.
  - simpl in H. destruct H as [<-|[<-|[<-|[<-|[]]]]]; try exact I; apply length_map.
  - destruct (mostrar_mapa c); simpl in H.
    + destruct H as [<-|[<-|[]]]; [exact I|].
      unfold generaMapa. cbv beta iota zeta. cbn [marcadores].
      rewrite length_map, length_combine, magnitud_color_col_length.
      apply Nat.min_id.
    + destruct H as [<-|[]]. exact I.
Qed.

(** X17: every view of a pass is drawn from the same filtered frame: the
    count of the summary, the number of values of each histogram and the
    number of markers of the map are the number of rows of that frame, and
    the table has that many rows or the number asked for, whichever is
    smaller. *)
Theorem panel_views_share_one_frame
    (kind : SortKind) (Hkind : sorts kind)
    (QuakeFeed : string -> string -> list RawEvent)
    (c : Controles) (fecha_peticion : Z) (df : list Fila) (ws : list widget) :
  df_filtrado QuakeFeed c = Some df ->
  panel QuakeFeed c fecha_peticion = Some ws ->
  Forall (fun w =>
            match w with
            | PlotlyChart (Histograma _ x) => List.length x = List.length df
            | PlotlyChart (ScatterMapbox m) => List.length (marcadores m) = List.length df
            | Dataframe t => List.length t = Nat.min (slider c) (List.length df)
            | Metricas _ n _ _ => n = List.length df
            | _ => True
            end) ws.
Proof.
  intros Hdf Hp. unfold panel in Hp. rewrite Hdf in Hp. inversion Hp; subst. clear Hp.
  constructor; [exact I|]. constructor; [reflexivity|].
  apply Forall_forall. intros w Hw. apply (vistas_sizes kind Hkind c df w Hw).
Qed.

Lemma panel_views_share_one_frame_witness :
  sorts stable_kind /\
  exists df ws,
    df_filtrado (kind := stable_kind) (fun _ _ => feed_D)
      {| sev_label := "todos"; periodo_label := "mes"; zona := "Puerto Rico";
         mostrar_mapa := true; mostrar_tabla := true; slider := 5 |} = Some df /\
    List.length df = 12%nat /\
    Forall (fun w =>
              match w with
              | PlotlyChart (Histograma _ x) => List.length x = List.length df
              | PlotlyChart (ScatterMapbox m) => List.length (marcadores m) = List.length df
              | Dataframe t => List.length t = Nat.min 5 (List.length df)
              | Metricas _ n _ _ => n = List.length df
              | _ => True
              end) ws.
Proof.
  split; [exact stable_kind_sorts|].
  eexists. eexists. split; [reflexivity|]. split; [vm_compute; reflexivity|].
  exact (panel_views_share_one_frame stable_kind stable_kind_sorts (fun _ _ => feed_D)
           {| sev_label := "todos"; periodo_label := "mes"; zona := "Puerto Rico";
              mostrar_mapa := true; mostrar_tabla := true; slider := 5 |}
           0%Z _ _ eq_refl eq_refl).
Defined.

(** X18: the notice of no events is shown exactly when the frame is empty.
    A frame with rows always gets its two histograms, then either the map or
    the placeholder that asks to turn the map on, never both, and the table
    exactly when its toggle is on. *)
Theorem vistas_layout (kind : SortKind) (c : Controles) (df : list Fila) :
  (existsb is_warning (vistas c df) = true <-> df = []) /\
  (df <> [] ->
   List.length (filter is_histogram (vistas c df)) = 2%nat /\
   List.length (filter is_map (vistas c df)) = (if mostrar_mapa c then 1 else 0)%nat /\
   List.length (filter is_info (vistas c df)) = (if mostrar_mapa c then 0 else 1)%nat /\
   List.length (filter is_dataframe (vistas c df)) = (if mostrar_tabla c then 1 else 0)%nat).
Proof.
  unfold vistas. destruct df as [|r df].
  - split; [split; reflexivity|]. intros H. contradiction.
  - split.
    + split; [|discriminate].
      destruct (mostrar_tabla c), (mostrar_mapa c); discriminate.
    + intros _. destruct (mostrar_tabla c), (mostrar_mapa c); repeat split.
Qed.

(** *** Order of the filtered frame and of the table *)

Lemma Sorted_StronglySorted_on {A : Type} (R : A -> A -> Prop) (l : list A) :
  (forall a b c, In a l -> In b l -> In c l -> R a b -> R b c -> R a c) ->
  Sorted R l -> StronglySorted R l.
Proof.
  intros Htrans Hs. induction Hs as [|a l Hs IH Hd]; [constructor|].
  assert (Hl : StronglySorted R l).
  { apply IH. intros x y z Hx Hy Hz. apply Htrans; right; assumption. }
  constructor; [exact Hl|].
  destruct Hd as [|b l' Hab]; [constructor|].
  constructor; [exact Hab|].
  apply StronglySorted_inv in Hl. destruct Hl as [_ Hb].
  rewrite Forall_forall in Hb |- *. intros x Hx.
  apply (Htrans a b x); simpl; auto.
Qed.

Lemma StronglySorted_filter {A : Type} (R : A -> A -> Prop) (p : A -> bool) (l : list A) :
  StronglySorted R l -> StronglySorted R (filter p l).
Proof.
  induction 1 as [|a l Hs IH Ha]; simpl; [constructor|].
  destruct (p a); [|exact IH]. constructor; [exact IH|].
  rewrite Forall_forall in Ha |- *. intros x Hx. apply Ha.
  apply filter_In in Hx. tauto.
Qed.

Lemma StronglySorted_app_between {A : Type} (R : A -> A -> Prop) (l1 l2 : list A) :
  StronglySorted R (l1 ++ l2) -> forall a b, In a l1 -> In b l2 -> R a b.
Proof.
  induction l1 as [|x l1 IH]; simpl; intros Hs a b Ha Hb; [destruct Ha|].
  apply StronglySorted_inv in Hs. destruct Hs as [Hs Hx].
  destruct Ha as [<-|Ha].
  - rewrite Forall_forall in Hx. apply Hx, in_or_app. right. exact Hb.
  - apply IH; assumption.
Qed.

Lemma Forall_filter_incl {A : Type} (P : A -> Prop) (p : A -> bool) (l : list A) :
  Forall P l -> Forall P (filter p l).
Proof.
  rewrite !Forall_forall. intros H x Hx. apply H. apply filter_In in Hx. tauto.
Qed.

Lemma recent_first_filter (p : Fila -> bool) (df : list Fila) :
  recent_first df -> recent_first (filter p df).
Proof.
  intros [recent [nulls [-> [Hr [Hn Hs]]]]].
  exists (filter p recent), (filter p nulls).
  split; [apply filter_app|].
  split; [apply Forall_filter_incl, Hr|].
  split; [apply Forall_filter_incl, Hn|].
  apply StronglySorted_filter, Hs.
Qed.

Lemma generaTabla_recent_first
    (kind : SortKind) (Hkind : sorts kind)
    (QuakeFeed : string -> string -> list RawEvent) (severidad periodo : string) :
  recent_first (generaTabla QuakeFeed severidad periodo).
Proof.
  unfold generaTabla.
  set (df := tabla_sin_ordenar (QuakeFeed severidad periodo)).
  exists (non_nulls_sorted time_utc Z.leb df), (filter (isna time_utc) df).
  assert (Hnn : Forall (fun r => time_utc r <> None) (non_nulls_sorted time_utc Z.leb df)).
  { eapply Forall_impl; [|apply non_nulls_sorted_notna, Hkind].
    intros r Hr. unfold notna in Hr. destruct (time_utc r); congruence. }
  split; [reflexivity|]. split; [exact Hnn|]. split.
  - apply Forall_forall. intros r Hr. apply filter_In in Hr.
    destruct Hr as [_ Hr]. unfold isna, notna in Hr.
    destruct (time_utc r); [discriminate|reflexivity].
  - apply Sorted_StronglySorted_on.
    + rewrite Forall_forall in Hnn. intros a b c Ha Hb Hc.
      pose proof (Hnn a Ha). pose proof (Hnn b Hb). pose proof (Hnn c Hc).
      unfold no_posterior.
      destruct (time_utc a), (time_utc b), (time_utc c); try congruence. lia.
    + eapply Sorted_impl; [apply le_key_no_posterior|].
      apply non_nulls_sorted_desc; [exact Hkind|apply Zleb_total_keys].
Qed.

(** X19: the frame a pass works on, filtered by zone or not, is still in
    the order of the table: its rows of non-null time come first, each one
    not older than any row after it, and its rows of null time come last. *)
Theorem filtered_frame_recent_first
    (kind : SortKind) (Hkind : sorts kind)
    (QuakeFeed : string -> string -> list RawEvent) (severidad periodo zona : string) :
  recent_first (filtro_zona zona (generaTabla QuakeFeed severidad periodo)).
Proof.
  unfold filtro_zona. destruct (String.eqb zona "Puerto Rico").
  - rewrite filtrar_puerto_rico_filter. apply recent_first_filter.
    apply generaTabla_recent_first, Hkind.
  - apply generaTabla_recent_first, Hkind.
Qed.

Lemma filtered_frame_recent_first_witness :
  sorts tie_reversing_kind /\
  map time_utc
      (filtro_zona "Puerto Rico"
         (@generaTabla tie_reversing_kind (fun _ _ => feed_sin_latitud ++ feed_empate)
                       "all" "month"))
    = [Some 8%Z; Some 7%Z; Some 7%Z; None] /\
  recent_first
    (filtro_zona "Puerto Rico"
       (@generaTabla tie_reversing_kind (fun _ _ => feed_sin_latitud ++ feed_empate)
                     "all" "month")).
Proof.
  split; [exact tie_reversing_kind_sorts|]. split; [vm_compute; reflexivity|].
  exact (filtered_frame_recent_first tie_reversing_kind tie_reversing_kind_sorts
           (fun _ _ => feed_sin_latitud ++ feed_empate) "all" "month" "Puerto Rico").
Defined.

Lemma in_skipn {A : Type} (n : nat) (l : list A) (x : A) : In x (skipn n l) -> In x l.
Proof. intros H. rewrite <- (firstn_skipn n l). apply in_or_app. right. exact H. Qed.

Lemma non_nulls_sorted_strongly
    (kind : SortKind) (Hkind : sorts kind) (t : list FilaTabla) :
  StronglySorted no_mayor (non_nulls_sorted (fun r => float_key (t_magnitud r)) leb t).
Proof.
  pose proof (non_nulls_sorted_notna Hkind (fun r => float_key (t_magnitud r)) leb t) as Hnn.
  rewrite Forall_forall in Hnn.
  apply Sorted_StronglySorted_on.
  - intros a b c _ _ _. unfold no_mayor. intros Hab Hbc. exact (leb_trans _ _ _ Hbc Hab).
  - eapply Sorted_impl_in;
      [|apply non_nulls_sorted_desc; [exact Hkind|apply float_key_total]].
    intros a b Ha Hb. apply le_key_no_mayor; auto.
Qed.

(** X20: the table shows the strongest events.  The rows of the frame are
    split between the table and the rows left out, and no row left out with
    a magnitude is stronger than a row of the table. *)
Theorem df_tabla_shows_strongest
    (kind : SortKind) (Hkind : sorts kind) (df : list Fila) (n : nat) :
  let sorted := sort_values_desc (fun r => float_key (t_magnitud r)) leb
                  (map columnas_tabla df) in
  map snd (df_tabla df n) = firstn n sorted /\
  Permutation (map columnas_tabla df) (map snd (df_tabla df n) ++ skipn n sorted) /\
  (forall shown left_out,
     In shown (map snd (df_tabla df n)) -> In left_out (skipn n sorted) ->
     is_nan (t_magnitud left_out) = false ->
     (t_magnitud left_out <=? t_magnitud shown) = true).
Proof.
  intros sorted.
  assert (Hsnd : map snd (df_tabla df n) = firstn n sorted).
  { unfold df_tabla, Pandas.head. fold sorted.
    apply (proj2 (map_fst_combine_seq (firstn n sorted) 1)). }
  rewrite Hsnd. split; [reflexivity|]. split.
  - rewrite firstn_skipn. apply (sort_values_desc_perm Hkind).
  - intros a b Ha Hb Hnum. unfold sorted in Ha, Hb.
    rewrite sort_values_desc_nulls_last in Ha, Hb.
    set (S := non_nulls_sorted (fun r => float_key (t_magnitud r)) leb
                (map columnas_tabla df)) in *.
    set (N := filter (isna (fun r => float_key (t_magnitud r))) (map columnas_tabla df)) in *.
    rewrite skipn_app in Hb. apply in_app_or in Hb. destruct Hb as [Hb|Hb].
    + assert (Hlt : (n < List.length S)%nat).
      { destruct (Nat.lt_ge_cases n (List.length S)) as [H|H]; [exact H|].
        rewrite skipn_all2 in Hb by exact H. destruct Hb. }
      rewrite firstn_app in Ha.
      replace (n - List.length S)%nat with 0%nat in Ha by lia.
      rewrite firstn_O, app_nil_r in Ha.
      pose proof (non_nulls_sorted_strongly kind Hkind (map columnas_tabla df)) as Hs.
      fold S in Hs. rewrite <- (firstn_skipn n S) in Hs.
      exact (StronglySorted_app_between _ _ _ Hs a b Ha Hb).
    + apply in_skipn in Hb. unfold N in Hb. apply filter_In in Hb.
      destruct Hb as [_ Hb]. unfold isna, notna, float_key in Hb.
      rewrite Hnum in Hb. discriminate.
Qed.

Lemma df_tabla_shows_strongest_witness :
  sorts stable_kind /\
  let df := @generaTabla stable_kind (fun _ _ => feed_D) "all" "month" in
  map (fun p => t_magnitud (snd p)) (@df_tabla stable_kind df 3) = [6.5; 6; 5.5] /\
  (forall shown left_out,
     In shown (map snd (@df_tabla stable_kind df 3)) ->
     In left_out
        (skipn 3 (sort_values_desc (kind := stable_kind)
                    (fun r => float_key (t_magnitud r)) leb (map columnas_tabla df))) ->
     is_nan (t_magnitud left_out) = false ->
     (t_magnitud left_out <=? t_magnitud shown) = true).
Proof.
  split; [exact stable_kind_sorts|]. split; [vm_compute; reflexivity|].
  exact (proj2 (proj2 (df_tabla_shows_strongest stable_kind stable_kind_sorts
                         (@generaTabla stable_kind (fun _ _ => feed_D) "all" "month") 3))).
Defined.

(** *** Magnitudes of one decimal *)

Lemma tenths_classified_upto_100 :
  forallb (fun k => String.eqb (clasificacion_richter (PyFloat (tenths k)))
                               (tier_of_tenths k))
          (seq 0 101) = true.
Proof. vm_compute. reflexivity. Qed.

(** X21: a magnitude given with one decimal, from 0.0 to 10.0, never falls
    between two tiers: it gets the tier of the table of thresholds. *)
Theorem clasificacion_richter_one_decimal (k : nat) :
  (k <= 100)%nat ->
  clasificacion_richter (PyFloat (tenths k)) = tier_of_tenths k.
Proof.
  intros Hk. apply String.eqb_eq.
  apply (proj1 (forallb_forall _ _) tenths_classified_upto_100).
  apply in_seq. lia.
Qed.

Lemma clasificacion_richter_one_decimal_witness :
  (39 <= 100)%nat /\ tenths 39 = 3.9 /\
  clasificacion_richter (PyFloat 3.9) = "menor".
Proof.
  split; [lia|]. split; [vm_compute; reflexivity|].
  exact (clasificacion_richter_one_decimal 39 ltac:(lia)).
Defined.

(** *** The date of the request *)

Lemma string_app_assoc (a b c : string) :
  ((a ++ b) ++ c)%string = (a ++ (b ++ c))%string.
Proof. induction a as [|x a IH]; simpl; [reflexivity|]. now rewrite IH. Qed.

Lemma pad2_length (z : Z) : (0 <= z < 100)%Z -> String.length (pad2 z) = 2%nat.
Proof.
  intros Hz.
  assert (H : forallb (fun k => Nat.eqb (String.length (pad2 (Z.of_nat k))) 2) (seq 0 100)
              = true) by (vm_compute; reflexivity).
  rewrite forallb_forall in H.
  specialize (H (Z.to_nat z)). rewrite Z2Nat.id in H by lia.
  apply Nat.eqb_eq, H, in_seq. lia.
Qed.

(** Before that instant the zone had other offsets: noon UTC of 1 June
    1943 is 9 o'clock of war time, and noon UTC of 1 January 1890 is
    07:35:35 of local mean time. *)
Lemma fecha_peticion_es_other_offsets :
  fecha_peticion_es (-838987200 * 1000000)%Z = "1 de Junio de 1943 09:00:00 AM" /\
  fecha_peticion_es (-2524478400 * 1000000)%Z = "1 de Enero de 1890 07:35:35 AM".
Proof. split; vm_compute; reflexivity. Qed.

(** X22: the date of a request made from 1946 on is shown in the time of
    Puerto Rico, four hours behind UTC: the calendar date of that local
    instant as [fecha_es_sola] writes it, then the hour from 01 to 12, the
    minutes and the seconds on two digits each, and "AM" before local noon,
    "PM" from noon on. *)
Theorem fecha_peticion_es_local_time (dt_utc : Z) :
  (AST_DESDE <= dt_utc)%Z ->
  let local := (dt_utc - 4 * 3600 * 1000000)%Z in
  let secs := ((local mod us_per_day) / 1000000)%Z in
  exists hh mm ss : Z,
    fecha_peticion_es dt_utc =
      (fecha_es_sola (Some local) ++ " " ++ pad2 hh ++ ":" ++ pad2 mm ++ ":" ++ pad2 ss
       ++ (if (secs <? 12 * 3600)%Z then " AM" else " PM"))%string /\
    (1 <= hh <= 12)%Z /\ (0 <= mm <= 59)%Z /\ (0 <= ss <= 59)%Z /\
    (secs = (if (secs <? 12 * 3600)%Z then 0 else 12 * 3600) + (hh mod 12) * 3600
            + mm * 60 + ss)%Z /\
    String.length (pad2 hh) = 2%nat /\ String.length (pad2 mm) = 2%nat /\
    String.length (pad2 ss) = 2%nat.
Proof.
  intros Hd local secs.
  assert (Hoff : TZ_PR_utcoffset dt_utc = (-4 * 3600 * 1000000)%Z).
  { unfold TZ_PR_utcoffset. unfold AST_DESDE in Hd.
    destruct (Z.ltb_spec dt_utc (-2233035335 * 1000000)); [lia|].
    destruct (Z.ltb_spec dt_utc (-765399600 * 1000000)); [lia|].
    rewrite andb_false_r. reflexivity. }
  assert (Hsecs : (0 <= secs < 86400)%Z).
  { unfold secs, us_per_day. split.
    - apply Z.div_pos; [|lia]. apply Z.mod_pos_bound. lia.
    - apply Z.div_lt_upper_bound; [lia|]. apply Z.mod_pos_bound. lia. }
  set (h := (secs / 3600)%Z).
  assert (Hh : (0 <= h < 24)%Z).
  { unfold h. split; [apply Z.div_pos; lia|apply Z.div_lt_upper_bound; lia]. }
  exists (if (h mod 12 =? 0)%Z then 12%Z else (h mod 12)%Z),
         ((secs / 60) mod 60)%Z, (secs mod 60)%Z.
  assert (Hh12 : (1 <= (if (h mod 12 =? 0)%Z then 12 else h mod 12) <= 12)%Z).
  { pose proof (Z.mod_pos_bound h 12 ltac:(lia)).
    destruct (Z.eqb_spec (h mod 12) 0); lia. }
  assert (Hmm : (0 <= (secs / 60) mod 60 <= 59)%Z)
    by (pose proof (Z.mod_pos_bound (secs / 60) 60 ltac:(lia)); lia).
  assert (Hss : (0 <= secs mod 60 <= 59)%Z)
    by (pose proof (Z.mod_pos_bound secs 60 ltac:(lia)); lia).
  split; [|split; [exact Hh12|split; [exact Hmm|split; [exact Hss|split; [|split; [|split]]]]]].
  - unfold fecha_peticion_es, fecha_es_sola. rewrite Hoff.
    replace (dt_utc + -4 * 3600 * 1000000)%Z with local by (unfold local; lia).
    fold secs. fold h.
    destruct (civil_from_days (local / us_per_day)) as [[y m] d].
    replace (secs <? 12 * 3600)%Z with (h <? 12)%Z.
    + rewrite !string_app_assoc. reflexivity.
    + unfold h. destruct (Z.ltb_spec (secs / 3600) 12), (Z.ltb_spec secs (12 * 3600));
        try reflexivity; exfalso.
      * apply (Z.div_le_mono _ _ 3600) in H0; [|lia].
        change (12 * 3600 / 3600)%Z with 12%Z in H0. lia.
      * assert (secs / 3600 <= 11)%Z; [|lia].
        apply Z.lt_succ_r, Z.div_lt_upper_bound; lia.
  - assert (Hmod : ((if (h mod 12 =? 0)%Z then 12 else h mod 12) mod 12 = h mod 12)%Z).
    { destruct (Z.eqb_spec (h mod 12) 0) as [E|E]; [rewrite E; reflexivity|].
      apply Z.mod_mod. lia. }
    rewrite Hmod. unfold h.
    destruct (Z.ltb_spec secs (12 * 3600)); Z.div_mod_to_equations; lia.
  - apply pad2_length. lia.
  - apply pad2_length. lia.
  - apply pad2_length. lia.
Qed.

(** A request of 14 December 2025, 19:14:18 UTC. *)
Lemma fecha_peticion_es_local_time_witness :
  (AST_DESDE <= 1765739658000000)%Z /\
  fecha_peticion_es 1765739658000000 = "14 de Diciembre de 2025 03:14:18 PM" /\
  exists hh mm ss : Z,
    fecha_peticion_es 1765739658000000 =
      (fecha_es_sola (Some (1765739658000000 - 4 * 3600 * 1000000)%Z)
       ++ " " ++ pad2 hh ++ ":" ++ pad2 mm ++ ":" ++ pad2 ss ++ " PM")%string /\
    (1 <= hh <= 12)%Z /\ (0 <= mm <= 59)%Z /\ (0 <= ss <= 59)%Z /\
    (54858 = 12 * 3600 + (hh mod 12) * 3600 + mm * 60 + ss)%Z /\
    String.length (pad2 hh) = 2%nat /\ String.length (pad2 mm) = 2%nat /\
    String.length (pad2 ss) = 2%nat.
Proof.
  assert (H : (AST_DESDE <= 1765739658000000)%Z) by (vm_compute; discriminate).
  split; [exact H|]. split; [vm_compute; reflexivity|].
  exact (fecha_peticion_es_local_time 1765739658000000 H).
Defined.

(** *** "N/A" *)

Lemma str_of_Z_head (z : Z) :
  exists c s, str_of_Z z = String c s /\ c <> "N"%char.
Proof.
  unfold str_of_Z. destruct (Z.to_int z) as [d|d]; simpl.
  - destruct d; simpl; eexists; eexists; split; try reflexivity; discriminate.
  - eexists; eexists; split; [reflexivity|discriminate].
Qed.

Lemma format_2f_head (x : float) :
  exists c s, format_2f x = String c s /\ c <> "N"%char.
Proof.
  unfold format_2f. destruct (Prim2SF x) as [s|s| |s m e].
  - destruct s; eexists; eexists; split; try reflexivity; discriminate.
  - destruct s; eexists; eexists; split; try reflexivity; discriminate.
  - eexists; eexists; split; [reflexivity|discriminate].
  - destruct s.
    + eexists; eexists; split; [reflexivity|discriminate].
    + match goal with
      | |- context [(str_of_Z ?z ++ _)%string] =>
        destruct (str_of_Z_head z) as [c [t [-> Hc]]]
      end.
      eexists; eexists; split; [reflexivity|exact Hc].
Qed.

(** X23: the summary shows "N/A" for a mean exactly when the frame has no
    row; with rows it always shows a number, "nan" or an infinity. *)
Theorem promedio_NA_iff_empty (df : list Fila) :
  (prom_mag_str df = "N/A" <-> df = []) /\
  (prom_prof_str df = "N/A" <-> df = []).
Proof.
  unfold prom_mag_str, prom_prof_str, cantidad.
  destruct df as [|r df]; [repeat split|].
  change (Nat.ltb 0 (List.length (r :: df))) with true. cbv iota.
  split; (split; [|discriminate]); intros H; exfalso.
  - destruct (format_2f_head (prom_mag (r :: df))) as [c [s [E Hc]]].
    rewrite E in H. inversion H. contradiction.
  - destruct (format_2f_head (prom_prof (r :: df))) as [c [s [E Hc]]].
    rewrite E in H. simpl in H. inversion H. contradiction.
Qed.
